(** * wAIrrenbuffett: the advisor and the projector, embedded and verified

    A shallow embedding of [ai_advisor.py] (class [AIAdvisor]) and
    [financial_projections.py] (class [FinancialProjector]).

    Python [float]s are IEEE-754 binary64 numbers: they are modelled by Rocq's
    primitive [float], whose operations are the same binary64 operations, so
    that every definition below evaluates to the value the Python code
    produces.  Python [int]s are [Z], [str] is [string] (ASCII), [None]-able
    values are [option], lists are [list], and an exception is a value of
    [exn] carried by [result]. *)

From Stdlib Require Import ZArith List String Ascii Bool Lia Floats.
From Stdlib Require Import Permutation Sorted DecimalString.
Import ListNotations.

Set Warnings "-inexact-float".
Local Open Scope string_scope.
Local Open Scope Z_scope.

(** ** Exceptions *)

Inductive exn : Type :=
| ZeroDivisionError
| IndexError
| OverflowError
| TypeError.

Inductive result (A : Type) : Type :=
| Ok (a : A)
| Raise (e : exn).

Arguments Ok {A} a.
Arguments Raise {A} e.

Definition bind {A B : Type} (c : result A) (k : A -> result B) : result B :=
  match c with
  | Ok a => k a
  | Raise e => Raise e
  end.

Notation "x <- c ;; k" := (bind c (fun x => k))
  (at level 61, c at next level, right associativity).

(** ** The Python runtime: numbers *)

Module Py.

(** [float(n)] for an [int] [n]: the nearest binary64 number (ties to even).
    CPython raises [OverflowError] beyond the binary64 range; every integer
    converted by the code below is a loop index or a small literal. *)
Definition float_of_Z (z : Z) : float :=
  SF2Prim (binary_normalize prec emax z 0 false).

(** [bool(x)] of a float: [x != 0.0] (a NaN is truthy). *)
Definition truthy (x : float) : bool := negb (x =? 0)%float.

(** [x != y] on floats. *)
Definition neqb (x y : float) : bool := negb (x =? y)%float.

(** [x / y] on floats: CPython raises on a zero divisor, of either sign. *)
Definition div (x y : float) : result float :=
  if (y =? 0)%float then Raise ZeroDivisionError else Ok (x / y)%float.

(** [a / b] on ints (true division) for a positive literal [b]: the
    correctly rounded quotient. *)
Definition int_truediv (a : Z) (b : positive) : float :=
  match a with
  | Z0 => zero
  | _ =>
      SF2Prim (SFdiv prec emax
                 (S754_finite (a <? 0) (Z.to_pos (Z.abs a)) 0)
                 (S754_finite false b 0))
  end.

(** The integer nearest to [a / b] for [b > 0], ties to the even one. *)
Definition round_half_even_div (a b : Z) : Z :=
  let q := a / b in
  match (2 * (a mod b) ?= b) with
  | Lt => q
  | Gt => q + 1
  | Eq => if Z.even q then q else q + 1
  end.

(** [|x| * 10^ndigits] rounded to an integer, ties to even, for the finite
    nonzero float of mantissa [m] and exponent [e]: the digits that CPython's
    [_Py_dg_dtoa(x, 3, ndigits)] produces. *)
Definition scaled_digits (m : positive) (e : Z) (ndigits : nat) : Z :=
  let scale := 10 ^ Z.of_nat ndigits in
  if 0 <=? e then Zpos m * 2 ^ e * scale
  else round_half_even_div (Zpos m * scale) (2 ^ (- e)).

(** [round(x, ndigits)] on a float, for [ndigits >= 0] (the source only uses
    1 and 2).  CPython rounds the exact value of [x] to [ndigits] decimals,
    ties to even, and converts that decimal back to the nearest float;
    infinities, NaN and zeros are returned as they are, and the sign of [x]
    is kept when the result is zero. *)
Definition round (x : float) (ndigits : nat) : float :=
  match Prim2SF x with
  | S754_finite s m e =>
      match scaled_digits m e ndigits with
      | Zpos n =>
          SF2Prim (SFdiv prec emax
                     (S754_finite s n 0)
                     (S754_finite false (Z.to_pos (10 ^ Z.of_nat ndigits)) 0))
      | _ => if s then neg_zero else zero
      end
  | _ => x
  end.

(** [round(n, ndigits)] on an int with [ndigits >= 0] is [n] itself, an int. *)
Definition round_int (n : Z) (ndigits : nat) : Z := n.

(** [format(x, '.2f')]. *)
Definition format_2f (x : float) : string :=
  let digits (n : Z) : string :=
    let cents := n mod 100 in
    (NilZero.string_of_uint (N.to_uint (Z.to_N (n / 100))) ++ "." ++
     NilZero.string_of_uint (N.to_uint (Z.to_N (cents / 10))) ++
     NilZero.string_of_uint (N.to_uint (Z.to_N (cents mod 10))))%string in
  match Prim2SF x with
  | S754_nan => "nan"
  | S754_infinity s => if s then "-inf" else "inf"
  | S754_zero s => if s then "-0.00" else "0.00"
  | S754_finite s m e =>
      ((if s then "-" else "") ++ digits (scaled_digits m e 2))%string
  end.

(** ** The Python runtime: strings, dicts and lists *)

Definition lower_ascii (c : ascii) : ascii :=
  let n := N_of_ascii c in
  if ((65 <=? n) && (n <=? 90))%N then ascii_of_N (n + 32) else c.

(** [s.lower()], on ASCII strings. *)
Fixpoint lower (s : string) : string :=
  match s with
  | EmptyString => EmptyString
  | String c s' => String (lower_ascii c) (lower s')
  end.

(** [x in xs] for a list of strings. *)
Definition str_in (x : string) (xs : list string) : bool :=
  existsb (String.eqb x) xs.

(** A dict literal with string keys, and [d.get(key, default)]. *)
Definition dict (V : Type) : Type := list (string * V).

Fixpoint get {V : Type} (d : dict V) (key : string) (default : V) : V :=
  match d with
  | [] => default
  | (k, v) :: d' => if String.eqb k key then v else get d' key default
  end.

(** [range(n)]. *)
Definition range (n : Z) : list Z :=
  map Z.of_nat (seq 0 (Z.to_nat n)).

(** [l[i]], negative indices counting from the end. *)
Definition index {A : Type} (l : list A) (i : Z) : result A :=
  let len := Z.of_nat (List.length l) in
  let j := if i <? 0 then i + len else i in
  if (j <? 0) || (len <=? j) then Raise IndexError
  else match nth_error l (Z.to_nat j) with
       | Some a => Ok a
       | None => Raise IndexError
       end.

(** [l[:stop]]. *)
Definition slice_to {A : Type} (l : list A) (stop : Z) : list A :=
  let len := Z.of_nat (List.length l) in
  let stop' := if stop <? 0 then Z.max 0 (stop + len) else Z.min stop len in
  firstn (Z.to_nat stop') l.




(** [sum(xs)] of floats, as iterated addition from the int [0]. *)
Definition sum (xs : list float) : float :=
  fold_left (fun acc x => (acc + x)%float) xs 0%float.

End Py.

(** ** The data model *)

Module UserProfile.
Record t : Type := mk {
  age : Z;
  location : string;
  annual_income : float;
  current_savings : float;
  monthly_expenses : float;
  total_debt : float;
  career_field : string;
  years_to_retirement : Z;
  expected_income_growth : float;
  marital_status : string;
  num_dependents : Z;
  major_life_goals : list string;
  risk_tolerance : string;
  investment_horizon : Z;
  preferred_sectors : list string;
  other_notes : string
}.
End UserProfile.

(** The dict that [_determine_allocation] returns.  [stocks] and [bonds] are
    Python ints ([round] of an int is an int); the four shares of the stock
    part are floats. *)
Module Breakdown.
Record t : Type := mk {
  large_cap : float;
  mid_cap : float;
  small_cap : float;
  international : float;
  bonds : Z
}.
End Breakdown.

Module Allocation.
Record t : Type := mk {
  stocks : Z;
  bonds : Z;
  breakdown : Breakdown.t
}.
End Allocation.

(** ['years_to_debt_free'] holds a number or the string ['N/A']. *)
Module Health.
Inductive years_field : Type :=
| Years (y : float)
| NA.

Record t : Type := mk {
  savings_rate : float;
  debt_to_income_ratio : float;
  years_to_debt_free : years_field;
  emergency_fund_months : float
}.
End Health.

Module Analysis.
Record t : Type := mk {
  financial_health : Health.t;
  recommended_allocation : Allocation.t;
  investment_strategy : string;
  risk_assessment : string
}.
End Analysis.

(** A stock record as [MarketDataFetcher.get_stock_info] builds it.
    [dividend_yield] and [pe_ratio] hold a number or [None]; [beta] and
    [market_cap] are the keys read with [stock.get(key, default)], [None]
    standing for an absent key. *)
Module Stock.
Record t : Type := mk {
  ticker : string;
  name : string;
  sector : string;
  current_price : float;
  dividend_yield : option float;
  pe_ratio : option float;
  beta : option float;
  market_cap : option Z
}.
End Stock.

Module Recommendation.
Record t : Type := mk {
  ticker : string;
  name : string;
  sector : string;
  current_price : float;
  dividend_yield : option float;
  pe_ratio : option float;
  score : float;
  rationale : string
}.
End Recommendation.

Module NetWorthRow.
Record t : Type := mk {
  year : Z;
  age : Z;
  net_worth : float;
  annual_income : float;
  annual_expenses : float;
  annual_savings : float
}.
End NetWorthRow.

Module IncomeRow.
Record t : Type := mk {
  year : Z;
  age : Z;
  gross_income : float;
  monthly_income : float
}.
End IncomeRow.

Module DividendRow.
Record t : Type := mk {
  year : Z;
  age : Z;
  portfolio_value : float;
  annual_dividend : float;
  monthly_dividend : float;
  dividend_yield : float
}.
End DividendRow.

Module ReturnRow.
Record t : Type := mk {
  year : Z;
  age : Z;
  expected_value : float;
  best_case : float;
  worst_case : float;
  conservative_case : float;
  total_contributions : float
}.
End ReturnRow.

Module Readiness.
Record t : Type := mk {
  retirement_net_worth : float;
  estimated_annual_expenses : float;
  safe_annual_withdrawal : float;
  replacement_ratio : float;
  retirement_goal : float;
  on_track : bool;
  surplus_shortfall : float
}.
End Readiness.

(** ** [ai_advisor.py]: class [AIAdvisor] (rule-based, [use_ollama = False]) *)

Module AIAdvisor.
Import UserProfile.

Definition risk_adjustments : Py.dict Z :=
  [("conservative", -15); ("moderate", 0); ("aggressive", 15)].

Definition _determine_allocation (profile : UserProfile.t) : Allocation.t :=
  let base_stock_percentage := 110 - age profile in
  let adjustment := Py.get risk_adjustments (risk_tolerance profile) 0 in
  let stock_percentage :=
    Z.max 30 (Z.min 90 (base_stock_percentage + adjustment)) in
  let bond_percentage := 100 - stock_percentage in
  let large_cap := (Py.float_of_Z stock_percentage * 0.60)%float in
  let mid_cap := (Py.float_of_Z stock_percentage * 0.25)%float in
  let small_cap := (Py.float_of_Z stock_percentage * 0.10)%float in
  let international := (Py.float_of_Z stock_percentage * 0.05)%float in
  {| Allocation.stocks := Py.round_int stock_percentage 1;
     Allocation.bonds := Py.round_int bond_percentage 1;
     Allocation.breakdown :=
       {| Breakdown.large_cap := Py.round large_cap 1;
          Breakdown.mid_cap := Py.round mid_cap 1;
          Breakdown.small_cap := Py.round small_cap 1;
          Breakdown.international := Py.round international 1;
          Breakdown.bonds := Py.round_int bond_percentage 1 |} |}.

Definition _determine_strategy (profile : UserProfile.t) : string :=
  if years_to_retirement profile <=? 5 then
    "Capital Preservation - Focus on stable dividend stocks and bonds"
  else if years_to_retirement profile <=? 15 then
    "Balanced Growth - Mix of growth and dividend stocks with some bonds"
  else if String.eqb (risk_tolerance profile) "aggressive" then
    "Aggressive Growth - Focus on high-growth stocks and emerging sectors"
  else if String.eqb (risk_tolerance profile) "conservative" then
    "Conservative Growth - Blue-chip dividend stocks and bonds"
  else
    "Moderate Growth - Diversified portfolio with growth and value stocks".

Definition _assess_risk (profile : UserProfile.t) : result string :=
  let risk_factors : list string := [] in
  let risk_factors :=
    if (annual_income profile <? 50000)%float
    then (risk_factors ++ ["Lower income requires more conservative approach"])%list
    else risk_factors in
  d <- Py.div (total_debt profile) (annual_income profile) ;;
  let debt_to_income := (d * 100)%float in
  let risk_factors :=
    if (40 <? debt_to_income)%float
    then (risk_factors ++ ["High debt-to-income ratio"])%list
    else risk_factors in
  emergency_months <-
    Py.div (current_savings profile) (monthly_expenses profile) ;;
  let risk_factors :=
    if (emergency_months <? 3)%float
    then (risk_factors ++ ["Insufficient emergency fund"])%list
    else risk_factors in
  let risk_factors :=
    if 0 <? num_dependents profile
    then (risk_factors ++ ["Financial responsibility for dependents"])%list
    else risk_factors in
  let risk_factors :=
    if years_to_retirement profile <? 10
    then (risk_factors ++ ["Short time horizon for retirement"])%list
    else risk_factors in
  Ok (if 3 <=? Z.of_nat (List.length risk_factors) then
        "High Risk - Consider conservative investments and building emergency fund"
      else if 1 <=? Z.of_nat (List.length risk_factors) then
        "Moderate Risk - Balance growth with stability"
      else
        "Low Risk - Good position for long-term growth investing").

Definition analyze_profile (profile : UserProfile.t) : result Analysis.t :=
  let monthly_income := (annual_income profile / 12)%float in
  r <- Py.div (monthly_income - monthly_expenses profile)%float
              monthly_income ;;
  let savings_rate := (r * 100)%float in
  d <- Py.div (total_debt profile) (annual_income profile) ;;
  let debt_to_income_ratio := (d * 100)%float in
  years_to_debt_free <-
    (if (monthly_expenses profile <? monthly_income)%float
     then Py.div (total_debt profile)
                 ((monthly_income - monthly_expenses profile) * 12)%float
     else Ok infinity) ;;
  let allocation := _determine_allocation profile in
  emergency <- Py.div (current_savings profile) (monthly_expenses profile) ;;
  risk <- _assess_risk profile ;;
  Ok {| Analysis.financial_health :=
          {| Health.savings_rate := Py.round savings_rate 2;
             Health.debt_to_income_ratio := Py.round debt_to_income_ratio 2;
             Health.years_to_debt_free :=
               if Py.neqb years_to_debt_free infinity
               then Health.Years (Py.round years_to_debt_free 2)
               else Health.NA;
             Health.emergency_fund_months := Py.round emergency 1 |};
        Analysis.recommended_allocation := allocation;
        Analysis.investment_strategy := _determine_strategy profile;
        Analysis.risk_assessment := risk |}.

(** [x and x > bound] for a value that may be [None]. *)
Definition truthy_and_gt (x : option float) (bound : float) : bool :=
  match x with
  | Some v => Py.truthy v && (bound <? v)%float
  | None => false
  end.

Definition sector_preferred (stock : Stock.t) (profile : UserProfile.t) : bool :=
  Py.str_in (Py.lower (Stock.sector stock))
            (map Py.lower (preferred_sectors profile)).


Definition _generate_rationale (stock : Stock.t) (profile : UserProfile.t)
  : string :=
  let beta := match Stock.beta stock with Some b => b | None => 1.0%float end in
  let reasons : list string := [] in
  let reasons :=
    if sector_preferred stock profile
    then (reasons
          ++ [("Matches your interest in " ++ Stock.sector stock)%string])%list
    else reasons in
  let reasons :=
    match Stock.dividend_yield stock with
    | Some dy =>
        if Py.truthy dy && (0.03 <? dy)%float
        then (reasons
                ++ [("Strong dividend yield of "
                       ++ Py.format_2f (dy * 100)%float ++ "%")%string])%list
        else reasons
    | None => reasons
    end in
  let reasons :=
    if (beta <? 0.9)%float && String.eqb (risk_tolerance profile) "conservative"
    then (reasons ++ ["Lower volatility matches your risk tolerance"])%list
    else reasons in
  let reasons :=
    if (1.1 <? beta)%float && String.eqb (risk_tolerance profile) "aggressive"
    then (reasons ++ ["Higher growth potential for aggressive strategy"])%list
    else reasons in
  let reasons :=
    match Stock.pe_ratio stock with
    | Some pe =>
        if (Py.truthy pe && ((10 <=? pe) && (pe <=? 20)))%float
        then (reasons ++ ["Reasonable valuation"])%list
        else reasons
    | None => reasons
    end in
  let reasons :=
    match reasons with
    | [] => ["Solid fundamentals for diversified portfolio"]
    | _ => reasons
    end in
  String.concat "; " reasons.



End AIAdvisor.

(** ** [financial_projections.py]: class [FinancialProjector] *)

(** The variables a projection loop carries from one year to the next. *)
Module NetWorthVars.
Record t : Type := mk {
  current_net_worth : float;
  annual_income : float;
  annual_expenses : float;
  annual_savings : float
}.
End NetWorthVars.

Module DividendVars.
Record t : Type := mk {
  current_portfolio_value : float;
  avg_dividend_yield : float
}.
End DividendVars.

Module FinancialProjector.
Import UserProfile.

Definition inflation_rate : float := 0.03.

Definition market_return_estimates : Py.dict float :=
  [("conservative", 0.05); ("moderate", 0.07); ("aggressive", 0.09)]%float.

(** [if years is None: years = min(profile.years_to_retirement, 30)]. *)
Definition horizon (profile : UserProfile.t) (years : option Z) : Z :=
  match years with
  | None => Z.min (years_to_retirement profile) 30
  | Some y => y
  end.

Definition net_worth_body (profile : UserProfile.t) (expected_return : float)
  (st : NetWorthVars.t * list NetWorthRow.t) (year : Z)
  : NetWorthVars.t * list NetWorthRow.t :=
  let '(v, projections) := st in
  let v :=
    if 0 <? year then
      let annual_income :=
        (NetWorthVars.annual_income v
         * (1 + expected_income_growth profile / 100))%float in
      let annual_expenses :=
        (NetWorthVars.annual_expenses v * (1 + inflation_rate))%float in
      {| NetWorthVars.current_net_worth := NetWorthVars.current_net_worth v;
         NetWorthVars.annual_income := annual_income;
         NetWorthVars.annual_expenses := annual_expenses;
         NetWorthVars.annual_savings := (annual_income - annual_expenses)%float |}
    else v in
  let v :=
    if 0 <? year then
      let investment_return :=
        (NetWorthVars.current_net_worth v * expected_return)%float in
      {| NetWorthVars.current_net_worth :=
           (NetWorthVars.current_net_worth v
            + (investment_return + NetWorthVars.annual_savings v))%float;
         NetWorthVars.annual_income := NetWorthVars.annual_income v;
         NetWorthVars.annual_expenses := NetWorthVars.annual_expenses v;
         NetWorthVars.annual_savings := NetWorthVars.annual_savings v |}
    else v in
  (v,
   (projections ++
    [ {| NetWorthRow.year := year;
         NetWorthRow.age := age profile + year;
         NetWorthRow.net_worth := Py.round (NetWorthVars.current_net_worth v) 2;
         NetWorthRow.annual_income := Py.round (NetWorthVars.annual_income v) 2;
         NetWorthRow.annual_expenses :=
           Py.round (NetWorthVars.annual_expenses v) 2;
         NetWorthRow.annual_savings :=
           Py.round (NetWorthVars.annual_savings v) 2 |} ])%list).

(** The variables of [project_net_worth] before its loop. *)
Definition net_worth_init (profile : UserProfile.t) : NetWorthVars.t :=
  let current_net_worth := (current_savings profile - total_debt profile)%float in
  let annual_income := annual_income profile in
  let annual_expenses := (monthly_expenses profile * 12)%float in
  {| NetWorthVars.current_net_worth := current_net_worth;
     NetWorthVars.annual_income := annual_income;
     NetWorthVars.annual_expenses := annual_expenses;
     NetWorthVars.annual_savings := (annual_income - annual_expenses)%float |}.

Definition project_net_worth (profile : UserProfile.t)
  (portfolio_allocation : Allocation.t) (years : option Z)
  : list NetWorthRow.t :=
  let years := horizon profile years in
  let expected_return :=
    Py.get market_return_estimates (risk_tolerance profile) 0.07%float in
  snd (fold_left (net_worth_body profile expected_return)
                 (Py.range (years + 1))
                 (net_worth_init profile, [])).

Definition income_body (profile : UserProfile.t)
  (st : float * list IncomeRow.t) (year : Z) : float * list IncomeRow.t :=
  let '(annual_income, projections) := st in
  let annual_income :=
    if 0 <? year
    then (annual_income * (1 + expected_income_growth profile / 100))%float
    else annual_income in
  (annual_income,
   (projections ++
    [ {| IncomeRow.year := year;
         IncomeRow.age := age profile + year;
         IncomeRow.gross_income := Py.round annual_income 2;
         IncomeRow.monthly_income := Py.round (annual_income / 12)%float 2 |} ]
   )%list).

Definition project_income (profile : UserProfile.t) (years : option Z)
  : list IncomeRow.t :=
  let years := horizon profile years in
  snd (fold_left (income_body profile) (Py.range (years + 1))
                 (annual_income profile, [])).

(** [s.get('dividend_yield', 0.03) for s in stock_recommendations]: every
    recommendation dict has the key, and [sum] raises [TypeError] on a value
    that is [None]. *)
Fixpoint recommended_yields (stock_recommendations : list Recommendation.t)
  : result (list float) :=
  match stock_recommendations with
  | [] => Ok []
  | s :: rest =>
      match Recommendation.dividend_yield s with
      | Some y => ys <- recommended_yields rest ;; Ok (y :: ys)
      | None => Raise TypeError
      end
  end.

(** The value of [avg_dividend_yield] before the loop. *)
Definition initial_dividend_yield (stock_recommendations : list Recommendation.t)
  : result float :=
  match stock_recommendations with
  | [] => Ok 0.03%float
  | _ =>
      ys <- recommended_yields stock_recommendations ;;
      let total_yield := Py.sum ys in
      Ok (total_yield
          / Py.float_of_Z (Z.of_nat (List.length stock_recommendations)))%float
  end.

Definition stock_allocation_pct : float := 0.60.
Definition dividend_stock_pct : float := 0.40.
Definition dividend_growth_rate : float := 0.05.

Definition dividend_body (profile : UserProfile.t) (annual_contributions : float)
  (st : DividendVars.t * list DividendRow.t) (year : Z)
  : DividendVars.t * list DividendRow.t :=
  let '(v, projections) := st in
  let current_portfolio_value :=
    if 0 <? year
    then (DividendVars.current_portfolio_value v * 1.07
          + annual_contributions)%float
    else DividendVars.current_portfolio_value v in
  let annual_dividend :=
    (current_portfolio_value * DividendVars.avg_dividend_yield v)%float in
  let avg_dividend_yield :=
    if 0 <? year
    then (DividendVars.avg_dividend_yield v * (1 + dividend_growth_rate))%float
    else DividendVars.avg_dividend_yield v in
  ({| DividendVars.current_portfolio_value := current_portfolio_value;
      DividendVars.avg_dividend_yield := avg_dividend_yield |},
   (projections ++
    [ {| DividendRow.year := year;
         DividendRow.age := age profile + year;
         DividendRow.portfolio_value := Py.round current_portfolio_value 2;
         DividendRow.annual_dividend := Py.round annual_dividend 2;
         DividendRow.monthly_dividend := Py.round (annual_dividend / 12)%float 2;
         DividendRow.dividend_yield :=
           Py.round (avg_dividend_yield * 100)%float 2 |} ])%list).

(** The variables of [project_dividends] before its loop, for the average
    yield [avg]. *)
Definition dividend_init (profile : UserProfile.t) (avg : float)
  : DividendVars.t :=
  let initial_investment :=
    (current_savings profile * stock_allocation_pct * dividend_stock_pct)%float in
  {| DividendVars.current_portfolio_value := initial_investment;
     DividendVars.avg_dividend_yield := avg |}.

Definition dividend_contributions (profile : UserProfile.t) : float :=
  ((annual_income profile - monthly_expenses profile * 12)
   * stock_allocation_pct * dividend_stock_pct)%float.

Definition project_dividends (profile : UserProfile.t)
  (stock_recommendations : list Recommendation.t) (years : option Z)
  : result (list DividendRow.t) :=
  let years := horizon profile years in
  avg_dividend_yield <- initial_dividend_yield stock_recommendations ;;
  let annual_contributions := dividend_contributions profile in
  Ok (snd (fold_left (dividend_body profile annual_contributions)
                     (Py.range (years + 1))
                     (dividend_init profile avg_dividend_yield, []))).

Definition stock_return : float := 0.10.
Definition bond_return : float := 0.04.
Definition stock_volatility : float := 0.18.
Definition bond_volatility : float := 0.05.

Definition expected_annual_return (allocation : Allocation.t) : float :=
  let stock_pct := Py.int_truediv (Allocation.stocks allocation) 100 in
  let bond_pct := Py.int_truediv (Allocation.bonds allocation) 100 in
  (stock_pct * stock_return + bond_pct * bond_return)%float.

Definition portfolio_volatility (allocation : Allocation.t) : float :=
  let stock_pct := Py.int_truediv (Allocation.stocks allocation) 100 in
  let bond_pct := Py.int_truediv (Allocation.bonds allocation) 100 in
  (stock_pct * stock_volatility + bond_pct * bond_volatility)%float.

Definition returns_body (profile : UserProfile.t) (allocation : Allocation.t)
  (annual_contribution : float)
  (st : float * list ReturnRow.t) (year : Z) : float * list ReturnRow.t :=
  let '(current_value, projections) := st in
  let '(current_value, best_case, worst_case, conservative) :=
    if 0 <? year then
      let expected_return :=
        (current_value * expected_annual_return allocation)%float in
      let current_value :=
        (current_value + (expected_return + annual_contribution))%float in
      (current_value,
       (current_value * (1 + 1.5 * portfolio_volatility allocation))%float,
       (current_value * (1 - 1.5 * portfolio_volatility allocation))%float,
       (current_value * 0.85)%float)
    else
      (current_value,
       (current_value * 1.1)%float,
       (current_value * 0.9)%float,
       current_value) in
  (current_value,
   (projections ++
    [ {| ReturnRow.year := year;
         ReturnRow.age := age profile + year;
         ReturnRow.expected_value := Py.round current_value 2;
         ReturnRow.best_case := Py.round best_case 2;
         ReturnRow.worst_case := Py.round worst_case 2;
         ReturnRow.conservative_case := Py.round conservative 2;
         ReturnRow.total_contributions :=
           Py.round (annual_contribution * Py.float_of_Z year)%float 2 |} ]
   )%list).

Definition project_portfolio_returns (profile : UserProfile.t)
  (allocation : Allocation.t) (years : option Z) : list ReturnRow.t :=
  let years := horizon profile years in
  let annual_contribution :=
    (annual_income profile - monthly_expenses profile * 12)%float in
  snd (fold_left (returns_body profile allocation annual_contribution)
                 (Py.range (years + 1))
                 (current_savings profile, [])).

Section RetirementReadiness.

(** [x ** n] for a float [x] and an int [n] is the C library's [pow], which
    CPython turns into [OverflowError] when the result leaves the binary64
    range.  The projector is parameterised by it. *)
Variable float_pow : float -> Z -> result float.

Definition calculate_retirement_readiness (profile : UserProfile.t)
  (net_worth_projections : list NetWorthRow.t) : result Readiness.t :=
  let retirement_year := years_to_retirement profile in
  row <-
    (if Z.of_nat (List.length net_worth_projections) <=? retirement_year
     then Py.index net_worth_projections (-1)
     else Py.index net_worth_projections retirement_year) ;;
  let retirement_net_worth := NetWorthRow.net_worth row in
  let years_to_retirement := years_to_retirement profile in
  let retirement_expenses := (monthly_expenses profile * 12 * 0.80)%float in
  growth <- float_pow (1 + inflation_rate)%float years_to_retirement ;;
  let retirement_expenses := (retirement_expenses * growth)%float in
  let safe_annual_withdrawal := (retirement_net_worth * 0.04)%float in
  let replacement_ratio :=
    if (0 <? retirement_expenses)%float
    then (safe_annual_withdrawal / retirement_expenses * 100)%float
    else 100%float in
  let retirement_goal := (retirement_expenses * 25)%float in
  Ok {| Readiness.retirement_net_worth := Py.round retirement_net_worth 2;
        Readiness.estimated_annual_expenses := Py.round retirement_expenses 2;
        Readiness.safe_annual_withdrawal := Py.round safe_annual_withdrawal 2;
        Readiness.replacement_ratio := Py.round replacement_ratio 1;
        Readiness.retirement_goal := Py.round retirement_goal 2;
        Readiness.on_track :=
          (retirement_goal * 0.8 <=? retirement_net_worth)%float;
        Readiness.surplus_shortfall :=
          Py.round (retirement_net_worth - retirement_goal)%float 2 |}.

End RetirementReadiness.

End FinancialProjector.

(** ** The allocation rule as the specification words it *)

Module AllocationSpec.

Definition clamp (x lo hi : Z) : Z :=
  if x <? lo then lo else if hi <? x then hi else x.

Definition adjustment (risk_tolerance : string) : Z :=
  if String.eqb risk_tolerance "conservative" then -15
  else if String.eqb risk_tolerance "aggressive" then 15
  else 0.

Definition stocks_pct (age : Z) (risk_tolerance : string) : Z :=
  clamp ((110 - age) + adjustment risk_tolerance) 30 90.

End AllocationSpec.

(** A profile that differs from another only by age and risk tolerance. *)
Definition sample_profile (age : Z) (risk_tolerance : string) : UserProfile.t :=
  {| UserProfile.age := age;
     UserProfile.location := "Austin, USA";
     UserProfile.annual_income := 100000;
     UserProfile.current_savings := 50000;
     UserProfile.monthly_expenses := 3000;
     UserProfile.total_debt := 20000;
     UserProfile.career_field := "Engineering";
     UserProfile.years_to_retirement := 30;
     UserProfile.expected_income_growth := 3;
     UserProfile.marital_status := "single";
     UserProfile.num_dependents := 0;
     UserProfile.major_life_goals := ["retirement"; "travel"];
     UserProfile.risk_tolerance := risk_tolerance;
     UserProfile.investment_horizon := 30;
     UserProfile.preferred_sectors := ["technology"];
     UserProfile.other_notes := "" |}.

(** ** [financial_projections.py]: [generate_summary] *)

Module Projections.
Record t : Type := mk {
  net_worth : list NetWorthRow.t;
  income : list IncomeRow.t;
  dividends : list DividendRow.t;
  portfolio_returns : list ReturnRow.t;
  retirement_readiness : Readiness.t
}.
End Projections.

Module CurrentSnapshot.
Record t : Type := mk {
  net_worth : float;
  annual_income : float;
  age : Z
}.
End CurrentSnapshot.

Module FutureProjection.
Record t : Type := mk {
  years_ahead : Z;
  net_worth : float;
  annual_income : float;
  annual_dividend : float;
  age : Z
}.
End FutureProjection.

Module Growth.
Record t : Type := mk {
  net_worth_growth : float;
  income_growth : float
}.
End Growth.

Module Summary.
Record t : Type := mk {
  current_snapshot : CurrentSnapshot.t;
  future_projection : FutureProjection.t;
  growth : Growth.t;
  retirement_outlook : Readiness.t
}.
End Summary.

Module Summarizer.
Import UserProfile.

(** [generate_summary].  The four list lookups come first, in the order of
    the source; the two quotients of the ['growth'] dict follow.  The value
    [0] of the guarded quotient is the int [0] in Python, the float [0] here. *)
Definition generate_summary (profile : UserProfile.t)
  (projections : Projections.t) : result Summary.t :=
  let net_worth_proj := Projections.net_worth projections in
  let income_proj := Projections.income projections in
  let dividend_proj := Projections.dividends projections in
  let retirement := Projections.retirement_readiness projections in
  first <- Py.index net_worth_proj 0 ;;
  let current_net_worth := NetWorthRow.net_worth first in
  let future_years := Z.min 10 (Z.of_nat (List.length net_worth_proj) - 1) in
  future_row <- Py.index net_worth_proj future_years ;;
  let future_net_worth := NetWorthRow.net_worth future_row in
  income_row <- Py.index income_proj future_years ;;
  let future_income := IncomeRow.gross_income income_row in
  dividend_row <- Py.index dividend_proj future_years ;;
  let future_dividend := DividendRow.annual_dividend dividend_row in
  net_worth_growth <-
    (if Py.neqb current_net_worth 0
     then q <- Py.div (future_net_worth - current_net_worth)%float
                      (abs current_net_worth) ;;
          Ok (q * 100)%float
     else Ok 0%float) ;;
  q <- Py.div (future_income - annual_income profile)%float
              (annual_income profile) ;;
  let income_growth := (q * 100)%float in
  Ok {| Summary.current_snapshot :=
          {| CurrentSnapshot.net_worth := Py.round current_net_worth 2;
             CurrentSnapshot.annual_income := Py.round (annual_income profile) 2;
             CurrentSnapshot.age := age profile |};
        Summary.future_projection :=
          {| FutureProjection.years_ahead := future_years;
             FutureProjection.net_worth := Py.round future_net_worth 2;
             FutureProjection.annual_income := Py.round future_income 2;
             FutureProjection.annual_dividend := Py.round future_dividend 2;
             FutureProjection.age := age profile + future_years |};
        Summary.growth :=
          {| Growth.net_worth_growth := Py.round net_worth_growth 1;
             Growth.income_growth := Py.round income_growth 1 |};
        Summary.retirement_outlook := retirement |}.

End Summarizer.

(** ** [market_data.py]: the ticker tables of [MarketDataFetcher] *)

Module MarketDataFetcher.

Definition sector_stocks : Py.dict (list string) :=
  [("technology",
    ["AAPL"; "MSFT"; "GOOGL"; "META"; "NVDA"; "AVGO"; "CSCO"; "ADBE"; "CRM";
     "INTC"]);
   ("tech",
    ["AAPL"; "MSFT"; "GOOGL"; "META"; "NVDA"; "AVGO"; "CSCO"; "ADBE"; "CRM";
     "INTC"]);
   ("healthcare",
    ["JNJ"; "UNH"; "PFE"; "ABBV"; "MRK"; "TMO"; "ABT"; "DHR"; "LLY"; "BMY"]);
   ("finance",
    ["JPM"; "BAC"; "WFC"; "C"; "GS"; "MS"; "BLK"; "SCHW"; "AXP"; "USB"]);
   ("financial",
    ["JPM"; "BAC"; "WFC"; "C"; "GS"; "MS"; "BLK"; "SCHW"; "AXP"; "USB"]);
   ("energy",
    ["XOM"; "CVX"; "COP"; "SLB"; "EOG"; "MPC"; "PSX"; "VLO"; "OXY"; "HAL"]);
   ("consumer",
    ["AMZN"; "TSLA"; "WMT"; "HD"; "NKE"; "MCD"; "SBUX"; "TGT"; "LOW"; "DIS"]);
   ("industrial",
    ["BA"; "HON"; "UNP"; "CAT"; "GE"; "MMM"; "LMT"; "RTX"; "DE"; "UPS"]);
   ("utilities",
    ["NEE"; "DUK"; "SO"; "D"; "AEP"; "EXC"; "SRE"; "PEG"; "XEL"; "ED"]);
   ("real estate",
    ["AMT"; "PLD"; "CCI"; "EQIX"; "PSA"; "SPG"; "O"; "WELL"; "DLR"; "AVB"]);
   ("materials",
    ["LIN"; "APD"; "SHW"; "FCX"; "NEM"; "ECL"; "DD"; "DOW"; "NUE"; "VMC"]);
   ("telecommunications", ["T"; "VZ"; "TMUS"; "CMCSA"; "CHTR"])].

(** [limit] defaults to 10 in the source. *)
Definition get_sector_stocks (sector : string) (limit : Z) : list string :=
  let sector_lower := Py.lower sector in
  let stocks := Py.get sector_stocks sector_lower [] in
  Py.slice_to stocks limit.

Definition dividend_stocks : list string :=
  ["JNJ"; "PG"; "KO"; "PEP"; "MCD"; "WMT"; "XOM"; "CVX";
   "T"; "VZ"; "IBM"; "ABBV"; "MMM"; "CAT"; "TGT"; "O";
   "MO"; "SO"; "DUK"; "NEE"].

(** [limit] defaults to 20 in the source. *)
Definition get_dividend_stocks (limit : Z) : list string :=
  Py.slice_to dividend_stocks limit.

End MarketDataFetcher.

(** ** [demo.py]: the sample profiles *)

Module Demo.

Definition young : UserProfile.t :=
  {| UserProfile.age := 28;
     UserProfile.location := "Austin, TX";
     UserProfile.annual_income := 85000;
     UserProfile.current_savings := 25000;
     UserProfile.monthly_expenses := 3200;
     UserProfile.total_debt := 35000;
     UserProfile.career_field := "Software Engineering";
     UserProfile.years_to_retirement := 37;
     UserProfile.expected_income_growth := 5.0;
     UserProfile.marital_status := "single";
     UserProfile.num_dependents := 0;
     UserProfile.major_life_goals :=
       ["Buy a house in 5 years"; "Build wealth for early retirement";
        "Travel internationally"];
     UserProfile.risk_tolerance := "aggressive";
     UserProfile.investment_horizon := 35;
     UserProfile.preferred_sectors := ["technology"; "healthcare"; "finance"];
     UserProfile.other_notes := "Tech-savvy, interested in growth stocks" |}.

Definition moderate : UserProfile.t :=
  {| UserProfile.age := 38;
     UserProfile.location := "Chicago, IL";
     UserProfile.annual_income := 125000;
     UserProfile.current_savings := 180000;
     UserProfile.monthly_expenses := 5500;
     UserProfile.total_debt := 280000;
     UserProfile.career_field := "Marketing Manager";
     UserProfile.years_to_retirement := 27;
     UserProfile.expected_income_growth := 3.5;
     UserProfile.marital_status := "married";
     UserProfile.num_dependents := 2;
     UserProfile.major_life_goals :=
       ["Save for children's college education"; "Pay off mortgage early";
        "Comfortable retirement"; "Family vacations"];
     UserProfile.risk_tolerance := "moderate";
     UserProfile.investment_horizon := 25;
     UserProfile.preferred_sectors := ["consumer"; "healthcare"; "technology"];
     UserProfile.other_notes :=
       "Family-oriented, balanced approach to investing" |}.

Definition conservative : UserProfile.t :=
  {| UserProfile.age := 52;
     UserProfile.location := "Denver, CO";
     UserProfile.annual_income := 145000;
     UserProfile.current_savings := 525000;
     UserProfile.monthly_expenses := 6800;
     UserProfile.total_debt := 85000;
     UserProfile.career_field := "Financial Analyst";
     UserProfile.years_to_retirement := 13;
     UserProfile.expected_income_growth := 2.5;
     UserProfile.marital_status := "married";
     UserProfile.num_dependents := 0;
     UserProfile.major_life_goals :=
       ["Retire comfortably at 65"; "Generate passive income";
        "Travel during retirement"; "Leave inheritance for children"];
     UserProfile.risk_tolerance := "conservative";
     UserProfile.investment_horizon := 13;
     UserProfile.preferred_sectors := ["utilities"; "consumer"; "healthcare"];
     UserProfile.other_notes :=
       "Focus on capital preservation and income generation" |}.

Definition retirement : UserProfile.t :=
  {| UserProfile.age := 67;
     UserProfile.location := "Phoenix, AZ";
     UserProfile.annual_income := 45000;
     UserProfile.current_savings := 850000;
     UserProfile.monthly_expenses := 4200;
     UserProfile.total_debt := 0;
     UserProfile.career_field := "Retired Teacher";
     UserProfile.years_to_retirement := 0;
     UserProfile.expected_income_growth := 0.0;
     UserProfile.marital_status := "widowed";
     UserProfile.num_dependents := 0;
     UserProfile.major_life_goals :=
       ["Maintain standard of living"; "Healthcare expenses";
        "Stay financially independent"; "Support grandchildren"];
     UserProfile.risk_tolerance := "conservative";
     UserProfile.investment_horizon := 5;
     UserProfile.preferred_sectors := ["utilities"; "consumer"; "healthcare"];
     UserProfile.other_notes := "Retired, focus on income and preservation" |}.

(** [get_demo_profile]; an unknown scenario calls [get_demo_profile("moderate")]. *)
Definition get_demo_profile (scenario : string) : UserProfile.t :=
  if String.eqb scenario "young" then young
  else if String.eqb scenario "moderate" then moderate
  else if String.eqb scenario "conservative" then conservative
  else if String.eqb scenario "retirement" then retirement
  else moderate.

End Demo.

(** ** [user_profile.py]: [to_dict] and [from_dict] *)

(** The values a profile dict holds. *)
Module PyValue.
Inductive t : Type :=
| Int (z : Z)
| Float (f : float)
| Str (s : string)
| StrList (l : list string).
End PyValue.

Module ProfileDict.
Import UserProfile.

Definition to_dict (self : UserProfile.t) : Py.dict PyValue.t :=
  [("age", PyValue.Int (age self));
   ("location", PyValue.Str (location self));
   ("annual_income", PyValue.Float (annual_income self));
   ("current_savings", PyValue.Float (current_savings self));
   ("monthly_expenses", PyValue.Float (monthly_expenses self));
   ("total_debt", PyValue.Float (total_debt self));
   ("career_field", PyValue.Str (career_field self));
   ("years_to_retirement", PyValue.Int (years_to_retirement self));
   ("expected_income_growth", PyValue.Float (expected_income_growth self));
   ("marital_status", PyValue.Str (marital_status self));
   ("num_dependents", PyValue.Int (num_dependents self));
   ("major_life_goals", PyValue.StrList (major_life_goals self));
   ("risk_tolerance", PyValue.Str (risk_tolerance self));
   ("investment_horizon", PyValue.Int (investment_horizon self));
   ("preferred_sectors", PyValue.StrList (preferred_sectors self));
   ("other_notes", PyValue.Str (other_notes self))].

(** The parameters of the dataclass constructor; only the last has a default. *)
Definition field_names : list string :=
  ["age"; "location"; "annual_income"; "current_savings"; "monthly_expenses";
   "total_debt"; "career_field"; "years_to_retirement";
   "expected_income_growth"; "marital_status"; "num_dependents";
   "major_life_goals"; "risk_tolerance"; "investment_horizon";
   "preferred_sectors"; "other_notes"].

Fixpoint lookup (data : Py.dict PyValue.t) (key : string) : option PyValue.t :=
  match data with
  | [] => None
  | (k, v) :: data' => if String.eqb k key then Some v else lookup data' key
  end.

(** A keyword argument of the constructor.  A missing required argument is a
    [TypeError].  The dataclass stores a value of any type; the record below
    is typed, so the model also stops with [TypeError] on a value of another
    type than the field's annotation (an int is accepted for a float). *)
Definition int_arg (data : Py.dict PyValue.t) (key : string) : result Z :=
  match lookup data key with
  | Some (PyValue.Int z) => Ok z
  | _ => Raise TypeError
  end.

Definition float_arg (data : Py.dict PyValue.t) (key : string) : result float :=
  match lookup data key with
  | Some (PyValue.Float f) => Ok f
  | Some (PyValue.Int z) => Ok (Py.float_of_Z z)
  | _ => Raise TypeError
  end.

Definition str_arg (data : Py.dict PyValue.t) (key : string) : result string :=
  match lookup data key with
  | Some (PyValue.Str s) => Ok s
  | _ => Raise TypeError
  end.

Definition list_arg (data : Py.dict PyValue.t) (key : string)
  : result (list string) :=
  match lookup data key with
  | Some (PyValue.StrList l) => Ok l
  | _ => Raise TypeError
  end.

(** [from_dict(data)] calls the constructor with the items of [data] as
    keyword arguments: a key that is no parameter of the constructor is a
    [TypeError]. *)
Definition from_dict (data : Py.dict PyValue.t) : result UserProfile.t :=
  if negb (forallb (fun kv => Py.str_in (fst kv) field_names) data)
  then Raise TypeError
  else
    age <- int_arg data "age" ;;
    location <- str_arg data "location" ;;
    annual_income <- float_arg data "annual_income" ;;
    current_savings <- float_arg data "current_savings" ;;
    monthly_expenses <- float_arg data "monthly_expenses" ;;
    total_debt <- float_arg data "total_debt" ;;
    career_field <- str_arg data "career_field" ;;
    years_to_retirement <- int_arg data "years_to_retirement" ;;
    expected_income_growth <- float_arg data "expected_income_growth" ;;
    marital_status <- str_arg data "marital_status" ;;
    num_dependents <- int_arg data "num_dependents" ;;
    major_life_goals <- list_arg data "major_life_goals" ;;
    risk_tolerance <- str_arg data "risk_tolerance" ;;
    investment_horizon <- int_arg data "investment_horizon" ;;
    preferred_sectors <- list_arg data "preferred_sectors" ;;
    other_notes <-
      match lookup data "other_notes" with
      | None => Ok ""
      | Some (PyValue.Str s) => Ok s
      | Some _ => Raise TypeError
      end ;;
    Ok (UserProfile.mk age location annual_income current_savings
          monthly_expenses total_debt career_field years_to_retirement
          expected_income_growth marital_status num_dependents
          major_life_goals risk_tolerance investment_horizon
          preferred_sectors other_notes).

End ProfileDict.

(** ** Loops that append one row per year

    Every projection loop carries its variables [s] through the years [ks]
    and appends one row per year: [step] is what a pass does to the
    variables and [emit] the row it appends. *)

Section YearLoop.

Context {S R : Type}.
Variable step : S -> Z -> S.
Variable emit : S -> Z -> R.

Definition loop_body (st : S * list R) (k : Z) : S * list R :=
  (step (fst st) k, (snd st ++ [emit (fst st) k])%list).

Fixpoint trace (s : S) (ks : list Z) : list R :=
  match ks with
  | [] => []
  | k :: ks' => emit s k :: trace (step s k) ks'
  end.

End YearLoop.

Module LoopParts.
Import UserProfile.

(** The parts of the four loop bodies of [FinancialProjector]. *)
Definition net_worth_step (profile : UserProfile.t) (expected_return : float)
  (v : NetWorthVars.t) (year : Z) : NetWorthVars.t :=
  fst (FinancialProjector.net_worth_body profile expected_return (v, []) year).

Definition net_worth_row (profile : UserProfile.t) (expected_return : float)
  (v : NetWorthVars.t) (year : Z) : NetWorthRow.t :=
  {| NetWorthRow.year := year;
     NetWorthRow.age := age profile + year;
     NetWorthRow.net_worth :=
       Py.round (NetWorthVars.current_net_worth
                   (net_worth_step profile expected_return v year)) 2;
     NetWorthRow.annual_income :=
       Py.round (NetWorthVars.annual_income
                   (net_worth_step profile expected_return v year)) 2;
     NetWorthRow.annual_expenses :=
       Py.round (NetWorthVars.annual_expenses
                   (net_worth_step profile expected_return v year)) 2;
     NetWorthRow.annual_savings :=
       Py.round (NetWorthVars.annual_savings
                   (net_worth_step profile expected_return v year)) 2 |}.

(** [annual_income *= 1 + growth / 100], from year 1 on. *)
Definition income_step (profile : UserProfile.t) (annual_income : float)
  (year : Z) : float :=
  if 0 <? year
  then (annual_income * (1 + expected_income_growth profile / 100))%float
  else annual_income.

Definition income_row (profile : UserProfile.t) (annual_income : float)
  (year : Z) : IncomeRow.t :=
  {| IncomeRow.year := year;
     IncomeRow.age := age profile + year;
     IncomeRow.gross_income := Py.round (income_step profile annual_income year) 2;
     IncomeRow.monthly_income :=
       Py.round (income_step profile annual_income year / 12)%float 2 |}.

Definition dividend_step (profile : UserProfile.t) (annual_contributions : float)
  (v : DividendVars.t) (year : Z) : DividendVars.t :=
  fst (FinancialProjector.dividend_body profile annual_contributions (v, []) year).

Definition dividend_row (profile : UserProfile.t) (annual_contributions : float)
  (v : DividendVars.t) (year : Z) : DividendRow.t :=
  let v' := dividend_step profile annual_contributions v year in
  let annual_dividend :=
    (DividendVars.current_portfolio_value v'
     * DividendVars.avg_dividend_yield v)%float in
  {| DividendRow.year := year;
     DividendRow.age := age profile + year;
     DividendRow.portfolio_value :=
       Py.round (DividendVars.current_portfolio_value v') 2;
     DividendRow.annual_dividend := Py.round annual_dividend 2;
     DividendRow.monthly_dividend := Py.round (annual_dividend / 12)%float 2;
     DividendRow.dividend_yield :=
       Py.round (DividendVars.avg_dividend_yield v' * 100)%float 2 |}.

(** The four values a pass of the portfolio-return loop computes: the new
    [current_value], [best_case], [worst_case] and [conservative]. *)
Definition returns_values (allocation : Allocation.t)
  (annual_contribution : float) (current_value : float) (year : Z)
  : float * float * float * float :=
  if 0 <? year then
    let expected_return :=
      (current_value
       * FinancialProjector.expected_annual_return allocation)%float in
    let current_value :=
      (current_value + (expected_return + annual_contribution))%float in
    (current_value,
     (current_value
      * (1 + 1.5 * FinancialProjector.portfolio_volatility allocation))%float,
     (current_value
      * (1 - 1.5 * FinancialProjector.portfolio_volatility allocation))%float,
     (current_value * 0.85)%float)
  else
    (current_value,
     (current_value * 1.1)%float,
     (current_value * 0.9)%float,
     current_value).

Definition returns_step (profile : UserProfile.t) (allocation : Allocation.t)
  (annual_contribution : float) (current_value : float) (year : Z) : float :=
  let '(current_value, _, _, _) :=
    returns_values allocation annual_contribution current_value year in
  current_value.

Definition returns_row (profile : UserProfile.t) (allocation : Allocation.t)
  (annual_contribution : float) (current_value : float) (year : Z)
  : ReturnRow.t :=
  let '(current_value, best_case, worst_case, conservative) :=
    returns_values allocation annual_contribution current_value year in
  {| ReturnRow.year := year;
     ReturnRow.age := age profile + year;
     ReturnRow.expected_value := Py.round current_value 2;
     ReturnRow.best_case := Py.round best_case 2;
     ReturnRow.worst_case := Py.round worst_case 2;
     ReturnRow.conservative_case := Py.round conservative 2;
     ReturnRow.total_contributions :=
       Py.round (annual_contribution * Py.float_of_Z year)%float 2 |}.

End LoopParts.

(** ** The recurrences and counts the properties below refer to *)

Module IncomeSpec.

(** The income of year [k]: [k] times multiplied by [1 + growth / 100]. *)
Definition income_at (profile : UserProfile.t) (k : nat) : float :=
  Nat.iter k
    (fun income =>
       (income * (1 + UserProfile.expected_income_growth profile / 100))%float)
    (UserProfile.annual_income profile).

End IncomeSpec.

Module RiskSpec.
Import UserProfile.

(** The five risk factors of [_assess_risk], for the two quotients it
    computes. *)
Definition factors (profile : UserProfile.t) (debt_to_income emergency_months : float)
  : list bool :=
  [ (annual_income profile <? 50000)%float;
    (40 <? debt_to_income)%float;
    (emergency_months <? 3)%float;
    0 <? num_dependents profile;
    years_to_retirement profile <? 10 ].

Definition count (factors : list bool) : Z :=
  Z.of_nat (List.length (filter (fun b => b) factors)).

Definition label (n : Z) : string :=
  if 3 <=? n then
    "High Risk - Consider conservative investments and building emergency fund"
  else if 1 <=? n then "Moderate Risk - Balance growth with stability"
  else "Low Risk - Good position for long-term growth investing".

End RiskSpec.

Module RationaleSpec.

(** The five conditions under which [_generate_rationale] gives a reason. *)
Definition conditions (stock : Stock.t) (profile : UserProfile.t) : list bool :=
  let beta := match Stock.beta stock with Some b => b | None => 1.0%float end in
  [ AIAdvisor.sector_preferred stock profile;
    AIAdvisor.truthy_and_gt (Stock.dividend_yield stock) 0.03;
    (beta <? 0.9)%float
    && String.eqb (UserProfile.risk_tolerance profile) "conservative";
    (1.1 <? beta)%float
    && String.eqb (UserProfile.risk_tolerance profile) "aggressive";
    match Stock.pe_ratio stock with
    | Some pe => (Py.truthy pe && ((10 <=? pe) && (pe <=? 20)))%float
    | None => false
    end ].

End RationaleSpec.


(** A stand-in for the C library's [pow] on a year count: repeated
    multiplication, [OverflowError] when the product leaves the binary64
    range.  It only serves to run the projector on examples. *)
Definition pow_by_repeated_product (x : float) (n : Z) : result float :=
  let y := Nat.iter (Z.to_nat n) (fun acc => (acc * x)%float) 1%float in
  if is_infinity y then Raise OverflowError else Ok y.

(** A float that is a number: [x == x]. *)
Definition is_number (x : float) : bool := (x =? x)%float.

(** Splits every integer comparison of the goal and closes the branch by
    linear arithmetic. *)
Ltac split_compares :=
  repeat match goal with
  | |- context [Pos.compare_cont Eq ?p ?q] =>
      change (Pos.compare_cont Eq p q) with (Pos.compare p q)
  | H : context [Pos.compare_cont Eq ?p ?q] |- _ =>
      change (Pos.compare_cont Eq p q) with (Pos.compare p q) in H
  end;
  repeat match goal with
  | |- context [(?a ?= ?b)%Z] => destruct (Z.compare_spec a b)
  | H : context [(?a ?= ?b)%Z] |- _ => destruct (Z.compare_spec a b)
  | |- context [(?a ?= ?b)%positive] => destruct (Pos.compare_spec a b)
  | H : context [(?a ?= ?b)%positive] |- _ => destruct (Pos.compare_spec a b)
  end;
  simpl in *; subst; try discriminate; try reflexivity; try lia.

(** Case analysis on the class and sign of three binary64 values. *)
Ltac by_float_cases x y z :=
  destruct x as [[]|[]| |[] ? ?], y as [[]|[]| |[] ? ?], z as [[]|[]| |[] ? ?];
  simpl; intros; try discriminate; try reflexivity;
  repeat match goal with
  | H : Some _ = Some _ |- _ => injection H as H
  end;
  try (f_equal; split_compares).

(** * Binary64 comparisons

    The facts about [<], [<=] and [==] on floats that the properties below
    use, from the specification of the primitive operations. *)

Module FloatOrder.

Lemma SFcompare_lt_trans x y z :
  SFcompare x y = Some Lt -> SFcompare y z = Some Lt -> SFcompare x z = Some Lt.
Proof. by_float_cases x y z. Qed.

Lemma SFcompare_lt_eq_trans x y z :
  SFcompare x y = Some Lt -> SFcompare y z = Some Eq -> SFcompare x z = Some Lt.
Proof. by_float_cases x y z. Qed.

Lemma SFcompare_eq_lt_trans x y z :
  SFcompare x y = Some Eq -> SFcompare y z = Some Lt -> SFcompare x z = Some Lt.
Proof. by_float_cases x y z. Qed.

Lemma SFcompare_eq_trans x y z :
  SFcompare x y = Some Eq -> SFcompare y z = Some Eq -> SFcompare x z = Some Eq.
Proof. by_float_cases x y z. Qed.

Lemma SFcompare_swap x y :
  SFcompare y x = option_map CompOpp (SFcompare x y).
Proof.
  destruct x as [[]|[]| |[] mx ex], y as [[]|[]| |[] my ey];
    simpl; try reflexivity; f_equal;
    change (Pos.compare_cont Eq my mx) with (Pos.compare my mx);
    change (Pos.compare_cont Eq mx my) with (Pos.compare mx my);
    rewrite (Z.compare_antisym ex ey), (Pos.compare_antisym mx my);
    destruct (ex ?= ey); simpl; try reflexivity;
    destruct (mx ?= my)%positive; reflexivity.
Qed.

Lemma SFcompare_refl x : x <> S754_nan -> SFcompare x x = Some Eq.
Proof.
  destruct x as [[]|[]| |[] m e]; simpl; intros H; try reflexivity;
    try congruence;
    change (Pos.compare_cont Eq m m) with (Pos.compare m m);
    rewrite Z.compare_refl, Pos.compare_refl; reflexivity.
Qed.

Lemma SFcompare_None x y :
  SFcompare x y = None <-> x = S754_nan \/ y = S754_nan.
Proof.
  destruct x as [[]|[]| |[] mx ex], y as [[]|[]| |[] my ey]; simpl;
    split; intros H; try discriminate; try reflexivity; auto;
    destruct H; discriminate.
Qed.

(** The three comparisons of two floats, read off [SFcompare]. *)
Lemma compare_cases (x y : float) :
  match SFcompare (Prim2SF x) (Prim2SF y) with
  | Some Lt => (x <? y)%float = true /\ (x <=? y)%float = true
               /\ (x =? y)%float = false
  | Some Eq => (x <? y)%float = false /\ (x <=? y)%float = true
               /\ (x =? y)%float = true
  | Some Gt | None => (x <? y)%float = false /\ (x <=? y)%float = false
               /\ (x =? y)%float = false
  end.
Proof.
  rewrite ltb_spec, leb_spec, eqb_spec. unfold SFltb, SFleb, SFeqb.
  destruct (SFcompare (Prim2SF x) (Prim2SF y)) as [[]|]; repeat split.
Qed.

Lemma ltb_true (x y : float) :
  (x <? y)%float = true <-> SFcompare (Prim2SF x) (Prim2SF y) = Some Lt.
Proof.
  pose proof (compare_cases x y) as H.
  destruct (SFcompare (Prim2SF x) (Prim2SF y)) as [[]|];
    destruct H as (H1 & _ & _); rewrite H1; split; congruence.
Qed.

Lemma eqb_true (x y : float) :
  (x =? y)%float = true <-> SFcompare (Prim2SF x) (Prim2SF y) = Some Eq.
Proof.
  pose proof (compare_cases x y) as H.
  destruct (SFcompare (Prim2SF x) (Prim2SF y)) as [[]|];
    destruct H as (_ & _ & H1); rewrite H1; split; congruence.
Qed.

Lemma leb_true (x y : float) :
  (x <=? y)%float = true <-> (x <? y)%float = true \/ (x =? y)%float = true.
Proof.
  pose proof (compare_cases x y) as H.
  destruct (SFcompare (Prim2SF x) (Prim2SF y)) as [[]|];
    destruct H as (H1 & H2 & H3); rewrite H1, H2, H3; intuition congruence.
Qed.

Lemma is_number_spec (x : float) :
  is_number x = true <-> Prim2SF x <> S754_nan.
Proof.
  unfold is_number. rewrite eqb_true. split.
  - intros H E. rewrite E in H. discriminate.
  - apply SFcompare_refl.
Qed.

Lemma ltb_trans (x y z : float) :
  (x <? y)%float = true -> (y <? z)%float = true -> (x <? z)%float = true.
Proof. rewrite !ltb_true. apply SFcompare_lt_trans. Qed.

Lemma ltb_leb_trans (x y z : float) :
  (x <? y)%float = true -> (y <=? z)%float = true -> (x <? z)%float = true.
Proof.
  intros H1 H2. apply leb_true in H2. destruct H2 as [H2|H2].
  - exact (ltb_trans _ _ _ H1 H2).
  - apply ltb_true. apply ltb_true in H1. apply eqb_true in H2.
    exact (SFcompare_lt_eq_trans _ _ _ H1 H2).
Qed.

Lemma leb_ltb_trans (x y z : float) :
  (x <=? y)%float = true -> (y <? z)%float = true -> (x <? z)%float = true.
Proof.
  intros H1 H2. apply leb_true in H1. destruct H1 as [H1|H1].
  - exact (ltb_trans _ _ _ H1 H2).
  - apply ltb_true. apply ltb_true in H2. apply eqb_true in H1.
    exact (SFcompare_eq_lt_trans _ _ _ H1 H2).
Qed.

Lemma leb_trans (x y z : float) :
  (x <=? y)%float = true -> (y <=? z)%float = true -> (x <=? z)%float = true.
Proof.
  intros H1 H2. apply leb_true. apply leb_true in H2. destruct H2 as [H2|H2].
  - left. exact (leb_ltb_trans _ _ _ H1 H2).
  - apply leb_true in H1. destruct H1 as [H1|H1].
    + left. apply ltb_true. apply ltb_true in H1. apply eqb_true in H2.
      exact (SFcompare_lt_eq_trans _ _ _ H1 H2).
    + right. apply eqb_true. apply eqb_true in H1. apply eqb_true in H2.
      exact (SFcompare_eq_trans _ _ _ H1 H2).
Qed.

Lemma ltb_irrefl (x : float) : (x <? x)%float = false.
Proof.
  destruct (x <? x)%float eqn:H; [|reflexivity].
  apply ltb_true in H.
  pose proof (SFcompare_swap (Prim2SF x) (Prim2SF x)) as S.
  rewrite H in S. discriminate S.
Qed.

Lemma ltb_asym (x y : float) :
  (x <? y)%float = true -> (y <? x)%float = false.
Proof.
  intros H. destruct (y <? x)%float eqn:H'; [|reflexivity].
  pose proof (ltb_trans _ _ _ H H') as C. rewrite ltb_irrefl in C. discriminate C.
Qed.

(** On numbers [<] and [>=] are complementary. *)
Lemma ltb_negb_leb (x y : float) :
  is_number x = true -> is_number y = true ->
  (x <? y)%float = negb (y <=? x)%float.
Proof.
  rewrite !is_number_spec. intros Hx Hy.
  pose proof (compare_cases x y) as H1. pose proof (compare_cases y x) as H2.
  rewrite (SFcompare_swap (Prim2SF x) (Prim2SF y)) in H2.
  destruct (SFcompare (Prim2SF x) (Prim2SF y)) as [[]|] eqn:E; simpl in H2;
    destruct H1 as (H1 & _ & _); destruct H2 as (_ & H2 & _);
    rewrite H1, H2; try reflexivity.
  apply SFcompare_None in E. tauto.
Qed.

Lemma ltb_is_number (x y : float) :
  (x <? y)%float = true -> is_number x = true /\ is_number y = true.
Proof.
  rewrite ltb_true, !is_number_spec. intros H.
  split; intros E; rewrite E in H;
    [|destruct (Prim2SF x) as [[]|[]| |[] ? ?]]; discriminate.
Qed.

Lemma eqb_sym (x y : float) : (x =? y)%float = (y =? x)%float.
Proof.
  pose proof (compare_cases x y) as H1. pose proof (compare_cases y x) as H2.
  rewrite (SFcompare_swap (Prim2SF x) (Prim2SF y)) in H2.
  destruct (SFcompare (Prim2SF x) (Prim2SF y)) as [[]|]; simpl in H2;
    destruct H1 as (_ & _ & H1); destruct H2 as (_ & _ & H2); congruence.
Qed.

(** Equal keys compare alike. *)
Lemma ltb_eqb_l (x y z : float) :
  (x =? y)%float = true -> (x <? z)%float = (y <? z)%float.
Proof.
  intros H.
  destruct (y <? z)%float eqn:E.
  - apply leb_ltb_trans with y; [apply leb_true; auto|exact E].
  - destruct (x <? z)%float eqn:E'; [|reflexivity].
    rewrite eqb_sym in H.
    rewrite <- E. symmetry.
    apply leb_ltb_trans with x; [apply leb_true; auto|exact E'].
Qed.

Lemma mul_comm (x y : float) : (x * y)%float = (y * x)%float.
Proof.
  apply Prim2SF_inj. rewrite !mul_spec. unfold SF64mul.
  destruct (Prim2SF x) as [[]|[]| |[] mx ex], (Prim2SF y) as [[]|[]| |[] my ey];
    simpl; try reflexivity; rewrite (Pos.mul_comm mx my), (Z.add_comm ex ey);
    reflexivity.
Qed.

End FloatOrder.

(** * Allocation *)

Lemma risk_adjustment_get (risk : string) :
  Py.get AIAdvisor.risk_adjustments risk 0 = AllocationSpec.adjustment risk.
Proof.
  unfold AIAdvisor.risk_adjustments, AllocationSpec.adjustment, Py.get.
  rewrite !(String.eqb_sym _ risk).
  destruct (String.eqb risk "conservative"); [reflexivity|].
  destruct (String.eqb risk "moderate") eqn:Hm; [|reflexivity].
  apply String.eqb_eq in Hm; subst; reflexivity.
Qed.

(** C2.  For every age in [18, 100] and every risk tolerance the allocation
    holds [stocks = clamp ((110 - age) + adjustment, 30, 90)] with adjustment
    -15 / 0 / +15 for conservative / moderate / aggressive and 0 for any other
    value, [bonds = 100 - stocks], hence [stocks + bonds = 100] and
    [30 <= stocks <= 90]; and the four scenarios of the specification
    evaluate to 72/28, 90/10, 43/57 and 30/70. *)
Theorem allocation_stock_bond_split :
  forall profile : UserProfile.t,
    18 <= UserProfile.age profile <= 100 ->
    let a := AIAdvisor._determine_allocation profile in
    Allocation.stocks a
      = AllocationSpec.stocks_pct (UserProfile.age profile)
          (UserProfile.risk_tolerance profile)
    /\ Allocation.bonds a = 100 - Allocation.stocks a
    /\ Allocation.stocks a + Allocation.bonds a = 100
    /\ 30 <= Allocation.stocks a <= 90
    /\ (let s age risk :=
          let a := AIAdvisor._determine_allocation (sample_profile age risk) in
          (Allocation.stocks a, Allocation.bonds a) in
        s 38 "moderate" = (72, 28) /\ s 28 "aggressive" = (90, 10)
        /\ s 52 "conservative" = (43, 57) /\ s 67 "conservative" = (30, 70)).
Proof.
  intros profile _ a.
  assert (Hs : Allocation.stocks a
               = AllocationSpec.stocks_pct (UserProfile.age profile)
                   (UserProfile.risk_tolerance profile)).
  { unfold a, AIAdvisor._determine_allocation, Py.round_int.
    cbn [Allocation.stocks]. rewrite risk_adjustment_get.
    unfold AllocationSpec.stocks_pct, AllocationSpec.clamp.
    destruct (Z.ltb_spec (110 - UserProfile.age profile
                          + AllocationSpec.adjustment
                              (UserProfile.risk_tolerance profile)) 30);
      destruct (Z.ltb_spec 90 (110 - UserProfile.age profile
                               + AllocationSpec.adjustment
                                   (UserProfile.risk_tolerance profile)));
      lia. }
  assert (Hb : Allocation.bonds a = 100 - Allocation.stocks a) by reflexivity.
  assert (Hr : 30 <= Allocation.stocks a <= 90).
  { unfold a, AIAdvisor._determine_allocation, Py.round_int.
    cbn [Allocation.stocks]. lia. }
  repeat split; try assumption; try lia; reflexivity.
Qed.

Lemma allocation_stock_bond_split_witness :
  18 <= 38 <= 100
  /\ Allocation.stocks (AIAdvisor._determine_allocation (sample_profile 38 "moderate"))
     = 72.
Proof.
  split; [lia|].
  exact (proj1 (allocation_stock_bond_split (sample_profile 38 "moderate")
                  ltac:(simpl; lia))).
Defined.

(** * Loops that append one row per year *)

Section YearLoopFacts.

Context {S R : Type}.
Variable step : S -> Z -> S.
Variable emit : S -> Z -> R.

Lemma fold_loop_body (ks : list Z) (s : S) (acc : list R) :
  fold_left (loop_body step emit) ks (s, acc)
  = (fold_left step ks s, (acc ++ trace step emit s ks)%list).
Proof.
  revert s acc. induction ks as [|k ks IH]; intros s acc; simpl.
  - rewrite app_nil_r. reflexivity.
  - unfold loop_body at 2. simpl. rewrite IH, <- app_assoc. reflexivity.
Qed.

Lemma trace_length (ks : list Z) (s : S) :
  List.length (trace step emit s ks) = List.length ks.
Proof.
  revert s. induction ks as [|k ks IH]; intros s; simpl; [reflexivity|].
  rewrite IH. reflexivity.
Qed.

Lemma trace_column {B : Type} (f : R -> B) (g : Z -> B) (ks : list Z) (s : S) :
  (forall s k, f (emit s k) = g k) ->
  map f (trace step emit s ks) = map g ks.
Proof.
  intros H. revert s. induction ks as [|k ks IH]; intros s; simpl;
    [reflexivity|]. rewrite H, IH. reflexivity.
Qed.

Lemma trace_nth (ks : list Z) (s : S) (i : nat) (k : Z) :
  nth_error ks i = Some k ->
  nth_error (trace step emit s ks) i
  = Some (emit (fold_left step (firstn i ks) s) k).
Proof.
  revert s i. induction ks as [|k0 ks IH]; intros s i H.
  - destruct i; discriminate.
  - destruct i as [|i]; simpl in *.
    + injection H as ->. reflexivity.
    + apply IH. exact H.
Qed.

End YearLoopFacts.

(** Two loops that run in lockstep produce columns that agree. *)
Lemma trace_lockstep {S1 S2 R1 R2 B : Type}
  (step1 : S1 -> Z -> S1) (emit1 : S1 -> Z -> R1)
  (step2 : S2 -> Z -> S2) (emit2 : S2 -> Z -> R2)
  (rel : S1 -> S2 -> Prop) (f : R1 -> B) (g : R2 -> B) :
  (forall s1 s2 k, rel s1 s2 -> rel (step1 s1 k) (step2 s2 k)) ->
  (forall s1 s2 k, rel s1 s2 -> f (emit1 s1 k) = g (emit2 s2 k)) ->
  forall ks s1 s2, rel s1 s2 ->
    map f (trace step1 emit1 s1 ks) = map g (trace step2 emit2 s2 ks).
Proof.
  intros Hstep Hemit. induction ks as [|k ks IH]; intros s1 s2 Hrel; simpl;
    [reflexivity|].
  rewrite (Hemit _ _ _ Hrel), (IH _ _ (Hstep _ _ k Hrel)). reflexivity.
Qed.

(** * The four projections as year loops *)

Import LoopParts.


Lemma net_worth_body_loop profile r :
  forall st year,
    FinancialProjector.net_worth_body profile r st year
    = loop_body (net_worth_step profile r) (net_worth_row profile r) st year.
Proof.
  intros [v acc] year. unfold loop_body, net_worth_row, net_worth_step.
  unfold FinancialProjector.net_worth_body. simpl.
  destruct (0 <? year); reflexivity.
Qed.

Lemma income_body_loop profile :
  forall st year,
    FinancialProjector.income_body profile st year
    = loop_body (income_step profile) (income_row profile) st year.
Proof. intros [v acc] year. reflexivity. Qed.

Lemma dividend_body_loop profile c :
  forall st year,
    FinancialProjector.dividend_body profile c st year
    = loop_body (dividend_step profile c) (dividend_row profile c) st year.
Proof.
  intros [v acc] year. unfold loop_body, dividend_row, dividend_step.
  unfold FinancialProjector.dividend_body. simpl.
  destruct (0 <? year); reflexivity.
Qed.

Lemma returns_body_loop profile a c :
  forall st year,
    FinancialProjector.returns_body profile a c st year
    = loop_body (returns_step profile a c) (returns_row profile a c) st year.
Proof.
  intros [v acc] year. unfold loop_body, returns_row, returns_step.
  unfold returns_values, FinancialProjector.returns_body. simpl.
  destruct (0 <? year); reflexivity.
Qed.

Lemma fold_left_ext {A B : Type} (f g : A -> B -> A) (l : list B) (a : A) :
  (forall a b, f a b = g a b) -> fold_left f l a = fold_left g l a.
Proof.
  intros H. revert a. induction l as [|b l IH]; intros a; simpl;
    [reflexivity|]. rewrite H. apply IH.
Qed.

Lemma project_net_worth_trace profile allocation years :
  FinancialProjector.project_net_worth profile allocation years
  = trace (net_worth_step profile
             (Py.get FinancialProjector.market_return_estimates
                (UserProfile.risk_tolerance profile) 0.07%float))
          (net_worth_row profile
             (Py.get FinancialProjector.market_return_estimates
                (UserProfile.risk_tolerance profile) 0.07%float))
          (FinancialProjector.net_worth_init profile)
          (Py.range (FinancialProjector.horizon profile years + 1)).
Proof.
  unfold FinancialProjector.project_net_worth.
  rewrite (fold_left_ext _ _ _ _ (net_worth_body_loop profile _)).
  rewrite fold_loop_body. reflexivity.
Qed.

Lemma project_income_trace profile years :
  FinancialProjector.project_income profile years
  = trace (income_step profile) (income_row profile)
          (UserProfile.annual_income profile)
          (Py.range (FinancialProjector.horizon profile years + 1)).
Proof.
  unfold FinancialProjector.project_income.
  rewrite (fold_left_ext _ _ _ _ (income_body_loop profile)).
  rewrite fold_loop_body. reflexivity.
Qed.

Lemma project_dividends_trace profile recs years avg :
  FinancialProjector.initial_dividend_yield recs = Ok avg ->
  FinancialProjector.project_dividends profile recs years
  = Ok (trace (dividend_step profile
                 (FinancialProjector.dividend_contributions profile))
              (dividend_row profile
                 (FinancialProjector.dividend_contributions profile))
              (FinancialProjector.dividend_init profile avg)
              (Py.range (FinancialProjector.horizon profile years + 1))).
Proof.
  intros H. unfold FinancialProjector.project_dividends. rewrite H. simpl.
  rewrite (fold_left_ext _ _ _ _ (dividend_body_loop profile _)).
  rewrite fold_loop_body. reflexivity.
Qed.

Lemma project_portfolio_returns_trace profile allocation years :
  FinancialProjector.project_portfolio_returns profile allocation years
  = trace (returns_step profile allocation
             (UserProfile.annual_income profile
              - UserProfile.monthly_expenses profile * 12)%float)
          (returns_row profile allocation
             (UserProfile.annual_income profile
              - UserProfile.monthly_expenses profile * 12)%float)
          (UserProfile.current_savings profile)
          (Py.range (FinancialProjector.horizon profile years + 1)).
Proof.
  unfold FinancialProjector.project_portfolio_returns.
  rewrite (fold_left_ext _ _ _ _ (returns_body_loop profile allocation _)).
  rewrite fold_loop_body. reflexivity.
Qed.

Lemma range_length (n : Z) : List.length (Py.range n) = Z.to_nat n.
Proof. unfold Py.range. rewrite length_map, length_seq. reflexivity. Qed.

Lemma range_nth (n : Z) (i : nat) :
  (i < Z.to_nat n)%nat -> nth_error (Py.range n) i = Some (Z.of_nat i).
Proof.
  intros H. unfold Py.range. rewrite nth_error_map.
  rewrite nth_error_seq. destruct (Nat.ltb_spec i (Z.to_nat n)); [|lia].
  reflexivity.
Qed.

(** A loop whose pass grows the variables from year 1 on. *)
Lemma trace_grow {S R : Type} (step : S -> Z -> S) (emit : S -> Z -> R)
  (grow : S -> S) :
  (forall s k, 0 < k -> step s k = grow s) ->
  forall n a s,
    trace step emit s (map Z.of_nat (seq (Datatypes.S a) n))
    = map (fun k => emit (Nat.iter (k - Datatypes.S a) grow s) (Z.of_nat k))
          (seq (Datatypes.S a) n).
Proof.
  intros Hstep. induction n as [|n IH]; intros a s; [reflexivity|].
  cbn [seq map trace]. rewrite Nat.sub_diag. cbn [Nat.iter]. f_equal.
  rewrite Hstep by lia. rewrite IH. apply map_ext_in.
  intros k Hk. apply in_seq in Hk.
  replace (k - Datatypes.S a)%nat with (Datatypes.S (k - Datatypes.S (Datatypes.S a)))
    by lia.
  rewrite Nat.iter_succ_r. reflexivity.
Qed.

Lemma trace_grow_from_0 {S R : Type} (step : S -> Z -> S) (emit : S -> Z -> R)
  (grow : S -> S) :
  (forall s k, 0 < k -> step s k = grow s) ->
  (forall s, step s 0 = s) ->
  forall n s,
    trace step emit s (map Z.of_nat (seq 0 n))
    = map (fun k => emit (Nat.iter (pred k) grow s) (Z.of_nat k)) (seq 0 n).
Proof.
  intros Hstep H0 [|n] s; [reflexivity|].
  cbn [seq map trace Nat.iter pred]. f_equal.
  rewrite H0, (trace_grow step emit grow Hstep). apply map_ext.
  intros k. destruct k; [reflexivity|]. simpl. rewrite Nat.sub_0_r. reflexivity.
Qed.

(** * The projections

    X7.  [project_income] returns one row for each year 0, 1, ..., horizon
    (none when the horizon is negative); the row of year [k] holds the year,
    the age [age + k], and the income after [k] multiplications by
    [1 + expected_income_growth / 100], rounded to 2 decimals, with its
    twelfth as the monthly income. *)
Theorem project_income_closed_form (profile : UserProfile.t) (years : option Z) :
  FinancialProjector.project_income profile years
  = map (fun k =>
           {| IncomeRow.year := Z.of_nat k;
              IncomeRow.age := UserProfile.age profile + Z.of_nat k;
              IncomeRow.gross_income :=
                Py.round (IncomeSpec.income_at profile k) 2;
              IncomeRow.monthly_income :=
                Py.round (IncomeSpec.income_at profile k / 12)%float 2 |})
        (seq 0 (Z.to_nat (FinancialProjector.horizon profile years + 1))).
Proof.
  rewrite project_income_trace. unfold Py.range.
  rewrite (trace_grow_from_0 (income_step profile) (income_row profile)
             (fun income =>
                (income * (1 + UserProfile.expected_income_growth profile / 100))%float)).
  - apply map_ext. intros k. unfold income_row, income_step, IncomeSpec.income_at.
    destruct k as [|k]; [reflexivity|].
    replace (0 <? Z.of_nat (Datatypes.S k)) with true
      by (symmetry; apply Z.ltb_lt; lia).
    reflexivity.
  - intros s k Hk. unfold income_step.
    replace (0 <? k) with true by (symmetry; apply Z.ltb_lt; lia). reflexivity.
  - reflexivity.
Qed.

(** X8.  The two independent income recurrences agree: the ['annual_income']
    column of [project_net_worth] is, year by year, the ['gross_income']
    column of [project_income]. *)
Theorem income_columns_agree (profile : UserProfile.t)
  (allocation : Allocation.t) (years : option Z) :
  map NetWorthRow.annual_income
      (FinancialProjector.project_net_worth profile allocation years)
  = map IncomeRow.gross_income
      (FinancialProjector.project_income profile years).
Proof.
  rewrite project_net_worth_trace, project_income_trace.
  apply trace_lockstep
    with (rel := fun v income => NetWorthVars.annual_income v = income).
  - intros v income k <-. unfold net_worth_step, income_step.
    unfold FinancialProjector.net_worth_body. simpl.
    destruct (0 <? k); reflexivity.
  - intros v income k <-. unfold net_worth_row, income_row, net_worth_step.
    unfold income_step, FinancialProjector.net_worth_body. simpl.
    destruct (0 <? k); reflexivity.
  - reflexivity.
Qed.

(** X9.  The four projections of one profile and one year count have the
    same length, [horizon + 1] rows (none for a negative horizon), and the
    same ['year'] and ['age'] columns: years 0, 1, ..., horizon and ages
    [age + year]. *)
Theorem projections_share_years (profile : UserProfile.t)
  (allocation : Allocation.t) (stock_recommendations : list Recommendation.t)
  (years : option Z) (avg : float) :
  FinancialProjector.initial_dividend_yield stock_recommendations = Ok avg ->
  let h := FinancialProjector.horizon profile years in
  let columns :=
    map (fun k => (k, UserProfile.age profile + k)) (Py.range (h + 1)) in
  List.length columns = Z.to_nat (h + 1)
  /\ map (fun r => (NetWorthRow.year r, NetWorthRow.age r))
         (FinancialProjector.project_net_worth profile allocation years)
     = columns
  /\ map (fun r => (IncomeRow.year r, IncomeRow.age r))
         (FinancialProjector.project_income profile years)
     = columns
  /\ (exists rows,
        FinancialProjector.project_dividends profile stock_recommendations years
        = Ok rows
        /\ map (fun r => (DividendRow.year r, DividendRow.age r)) rows = columns)
  /\ map (fun r => (ReturnRow.year r, ReturnRow.age r))
         (FinancialProjector.project_portfolio_returns profile allocation years)
     = columns.
Proof.
  intros Havg h columns. split; [|split; [|split; [|split]]].
  - unfold columns. rewrite length_map. apply range_length.
  - rewrite project_net_worth_trace. apply trace_column. reflexivity.
  - rewrite project_income_trace. apply trace_column. reflexivity.
  - eexists. split; [exact (project_dividends_trace _ _ _ _ Havg)|].
    apply trace_column. reflexivity.
  - rewrite project_portfolio_returns_trace. apply trace_column.
    intros s k. unfold returns_row, returns_values.
    destruct (0 <? k); reflexivity.
Qed.

Lemma projections_share_years_witness :
  FinancialProjector.initial_dividend_yield [] = Ok 0.03%float
  /\ map (fun r => (IncomeRow.year r, IncomeRow.age r))
         (FinancialProjector.project_income Demo.retirement (Some 2))
     = [(0, 67); (1, 68); (2, 69)].
Proof.
  split; [reflexivity|].
  exact (proj1 (proj2 (proj2
           (projections_share_years Demo.retirement
              (AIAdvisor._determine_allocation Demo.retirement) []
              (Some 2) 0.03%float eq_refl)))).
Defined.

Lemma index_in_range {A : Type} (l : list A) (i : Z) (a : A) :
  0 <= i -> nth_error l (Z.to_nat i) = Some a -> Py.index l i = Ok a.
Proof.
  intros Hi H. unfold Py.index.
  assert (Hlen : (Z.to_nat i < List.length l)%nat)
    by (apply nth_error_Some; congruence).
  assert (E : (i <? 0) = false) by (apply Z.ltb_ge; lia).
  cbv zeta. rewrite !E.
  replace (Z.of_nat (List.length l) <=? i) with false
    by (symmetry; apply Z.leb_gt; lia).
  cbn [orb]. rewrite H. reflexivity.
Qed.

Lemma index_last {A : Type} (l : list A) (a : A) :
  nth_error l (pred (List.length l)) = Some a -> Py.index l (-1) = Ok a.
Proof.
  intros H. unfold Py.index.
  assert (Hlen : (pred (List.length l) < List.length l)%nat)
    by (apply nth_error_Some; congruence).
  change (-1 <? 0) with true. cbv iota zeta.
  remember (-1 + Z.of_nat (List.length l)) as j eqn:Hj.
  replace (j <? 0) with false by (symmetry; apply Z.ltb_ge; lia).
  replace (Z.of_nat (List.length l) <=? j) with false
    by (symmetry; apply Z.leb_gt; lia).
  cbn [orb]. replace (Z.to_nat j) with (pred (List.length l)) by lia.
  rewrite H. reflexivity.
Qed.

(** X10.  On the net-worth projection with the default horizon and a
    non-negative [years_to_retirement], [calculate_retirement_readiness]
    raises no [IndexError] and takes the net worth of year
    [min(years_to_retirement, 30)]: beyond 30 years it is the year-30 row,
    while the expenses are still inflated over all the [years_to_retirement]
    years. *)
Theorem readiness_on_default_projection
  (float_pow : float -> Z -> result float) (profile : UserProfile.t)
  (allocation : Allocation.t) (growth : float) :
  0 <= UserProfile.years_to_retirement profile ->
  float_pow (1 + FinancialProjector.inflation_rate)%float
            (UserProfile.years_to_retirement profile) = Ok growth ->
  let rows := FinancialProjector.project_net_worth profile allocation None in
  let year := Z.min (UserProfile.years_to_retirement profile) 30 in
  exists row r,
    nth_error rows (Z.to_nat year) = Some row
    /\ NetWorthRow.year row = year
    /\ FinancialProjector.calculate_retirement_readiness float_pow profile rows
       = Ok r
    /\ Readiness.retirement_net_worth r = Py.round (NetWorthRow.net_worth row) 2
    /\ Readiness.estimated_annual_expenses r
       = Py.round (UserProfile.monthly_expenses profile * 12 * 0.80 * growth)%float 2.
Proof.
  intros Hy Hpow rows year.
  assert (Hlen : List.length rows = Datatypes.S (Z.to_nat year)).
  { unfold rows. rewrite project_net_worth_trace, trace_length, range_length.
    unfold FinancialProjector.horizon. fold year. lia. }
  assert (Hrow : exists row, nth_error rows (Z.to_nat year) = Some row
                             /\ NetWorthRow.year row = year).
  { unfold rows. rewrite project_net_worth_trace.
    eexists. split.
    - apply trace_nth. apply range_nth.
      unfold FinancialProjector.horizon. fold year. lia.
    - simpl. lia. }
  destruct Hrow as (row & Hnth & Hyear).
  exists row. eexists. split; [exact Hnth|]. split; [exact Hyear|].
  unfold FinancialProjector.calculate_retirement_readiness. fold rows.
  assert (Hidx :
    (if Z.of_nat (List.length rows) <=? UserProfile.years_to_retirement profile
     then Py.index rows (-1)
     else Py.index rows (UserProfile.years_to_retirement profile)) = Ok row).
  { destruct (Z.leb_spec (Z.of_nat (List.length rows))
                (UserProfile.years_to_retirement profile)) as [Hle|Hgt].
    - apply index_last. rewrite Hlen. exact Hnth.
    - apply index_in_range; [exact Hy|].
      replace (UserProfile.years_to_retirement profile) with year by lia.
      exact Hnth. }
  rewrite Hidx. cbn [bind]. rewrite Hpow. cbn [bind].
  split; [reflexivity|]. split; reflexivity.
Qed.

Lemma readiness_on_default_projection_witness :
  exists growth row r,
    0 <= UserProfile.years_to_retirement Demo.young
    /\ pow_by_repeated_product (1 + FinancialProjector.inflation_rate)%float 37
       = Ok growth
    /\ nth_error (FinancialProjector.project_net_worth Demo.young
                    (AIAdvisor._determine_allocation Demo.young) None) 30
       = Some row
    /\ NetWorthRow.year row = 30
    /\ FinancialProjector.calculate_retirement_readiness
         pow_by_repeated_product Demo.young
         (FinancialProjector.project_net_worth Demo.young
            (AIAdvisor._determine_allocation Demo.young) None) = Ok r
    /\ Readiness.retirement_net_worth r = Py.round (NetWorthRow.net_worth row) 2.
Proof.
  assert (Hy : 0 <= UserProfile.years_to_retirement Demo.young)
    by (simpl; lia).
  assert (Hpow : {g | pow_by_repeated_product
                        (1 + FinancialProjector.inflation_rate)%float
                        (UserProfile.years_to_retirement Demo.young) = Ok g}).
  { eexists. vm_compute. reflexivity. }
  destruct Hpow as [g Hpow].
  destruct (readiness_on_default_projection pow_by_repeated_product Demo.young
              (AIAdvisor._determine_allocation Demo.young) g Hy Hpow)
    as (row & r & H1 & H2 & H3 & H4 & _).
  exists g, row, r. repeat split; assumption.
Defined.

Lemma abs_eqb_zero (c : float) : (abs c =? 0)%float = (c =? 0)%float.
Proof.
  rewrite !eqb_spec, abs_spec.
  change (Prim2SF 0) with (S754_zero false).
  destruct (Prim2SF c) as [[]|[]| |[] m e]; reflexivity.
Qed.

Lemma div_by_abs (x c : float) :
  Py.neqb c 0 = true -> Py.div x (abs c) = Ok (x / abs c)%float.
Proof.
  unfold Py.neqb, Py.div. rewrite abs_eqb_zero.
  destruct (c =? 0)%float; [discriminate|reflexivity].
Qed.

Lemma index_cases {A : Type} (l : list A) (i : Z) :
  0 <= i ->
  (i < Z.of_nat (List.length l) /\ exists a, Py.index l i = Ok a)
  \/ (Z.of_nat (List.length l) <= i /\ Py.index l i = Raise IndexError).
Proof.
  intros Hi. destruct (Z.lt_ge_cases i (Z.of_nat (List.length l))) as [Hlt|Hge].
  - left. split; [exact Hlt|].
    destruct (nth_error l (Z.to_nat i)) as [a|] eqn:E.
    + exists a. apply index_in_range; assumption.
    + apply nth_error_None in E. lia.
  - right. split; [exact Hge|]. unfold Py.index.
    assert (E : (i <? 0) = false) by (apply Z.ltb_ge; lia).
    cbv zeta. rewrite !E.
    replace (Z.of_nat (List.length l) <=? i) with true
      by (symmetry; apply Z.leb_le; lia).
    reflexivity.
Qed.

(** * The summary

    X14.  [generate_summary] raises [IndexError] exactly when the net-worth
    list is empty, or the income or dividend list has no row of index
    [min(10, len(net_worth) - 1)]. *)
Theorem generate_summary_index_error (profile : UserProfile.t)
  (projections : Projections.t) :
  let n := Z.of_nat (List.length (Projections.net_worth projections)) in
  let future_years := Z.min 10 (n - 1) in
  Summarizer.generate_summary profile projections = Raise IndexError
  <-> n = 0
      \/ Z.of_nat (List.length (Projections.income projections)) <= future_years
      \/ Z.of_nat (List.length (Projections.dividends projections))
         <= future_years.
Proof.
  intros n future_years. unfold Summarizer.generate_summary.
  fold n. fold future_years.
  destruct (index_cases (Projections.net_worth projections) 0 ltac:(lia))
    as [[H0 [first E0]]|[H0 E0]]; rewrite E0; cbn [bind].
  2:{ split; [intros _; left; lia|reflexivity]. }
  fold n in H0.
  assert (Hfy : 0 <= future_years < n) by (unfold future_years; lia).
  destruct (index_cases (Projections.net_worth projections) future_years
              ltac:(lia)) as [[H1 [row E1]]|[H1 E1]]; [|fold n in H1; lia].
  rewrite E1. cbn [bind].
  destruct (index_cases (Projections.income projections) future_years
              ltac:(lia)) as [[H2 [irow E2]]|[H2 E2]]; rewrite E2; cbn [bind].
  2:{ split; [intros _; right; left; exact H2|reflexivity]. }
  destruct (index_cases (Projections.dividends projections) future_years
              ltac:(lia)) as [[H3 [drow E3]]|[H3 E3]]; rewrite E3; cbn [bind].
  2:{ split; [intros _; right; right; exact H3|reflexivity]. }
  split.
  - intros H. exfalso.
    destruct (Py.neqb (NetWorthRow.net_worth first) 0) eqn:G.
    + rewrite div_by_abs in H by exact G. cbn [bind] in H.
      unfold Py.div in H.
      destruct (UserProfile.annual_income profile =? 0)%float; discriminate H.
    + cbn [bind] in H. unfold Py.div in H.
      destruct (UserProfile.annual_income profile =? 0)%float; discriminate H.
  - intros [H|[H|H]]; lia.
Qed.

(** X15.  On the projections that the projector itself computed for one
    profile and one non-negative horizon, [generate_summary] raises
    [ZeroDivisionError] when [annual_income] is zero and otherwise returns a
    summary that looks [min(10, horizon)] years ahead and passes the
    retirement readiness on unchanged; the quotient by [abs(current net
    worth)] never raises. *)
Theorem generate_summary_on_projections (profile : UserProfile.t)
  (allocation : Allocation.t) (stock_recommendations : list Recommendation.t)
  (years : option Z) (avg : float) (readiness : Readiness.t) :
  0 <= FinancialProjector.horizon profile years ->
  FinancialProjector.initial_dividend_yield stock_recommendations = Ok avg ->
  exists dividends,
    FinancialProjector.project_dividends profile stock_recommendations years
    = Ok dividends
    /\ let projections :=
         {| Projections.net_worth :=
              FinancialProjector.project_net_worth profile allocation years;
            Projections.income :=
              FinancialProjector.project_income profile years;
            Projections.dividends := dividends;
            Projections.portfolio_returns :=
              FinancialProjector.project_portfolio_returns profile allocation
                years;
            Projections.retirement_readiness := readiness |} in
       if (UserProfile.annual_income profile =? 0)%float
       then Summarizer.generate_summary profile projections
            = Raise ZeroDivisionError
       else exists summary,
           Summarizer.generate_summary profile projections = Ok summary
           /\ FutureProjection.years_ahead (Summary.future_projection summary)
              = Z.min 10 (FinancialProjector.horizon profile years)
           /\ FutureProjection.age (Summary.future_projection summary)
              = UserProfile.age profile
                + Z.min 10 (FinancialProjector.horizon profile years)
           /\ Summary.retirement_outlook summary = readiness.
Proof.
  intros Hh Havg. eexists. split; [exact (project_dividends_trace _ _ _ _ Havg)|].
  intros projections.
  set (h := FinancialProjector.horizon profile years) in *.
  assert (Ln : List.length (Projections.net_worth projections)
               = Z.to_nat (h + 1)).
  { unfold projections. cbn [Projections.net_worth].
    rewrite project_net_worth_trace, trace_length. apply range_length. }
  assert (Li : List.length (Projections.income projections)
               = Z.to_nat (h + 1)).
  { unfold projections. cbn [Projections.income].
    rewrite project_income_trace, trace_length. apply range_length. }
  assert (Ld : List.length (Projections.dividends projections)
               = Z.to_nat (h + 1)).
  { unfold projections. cbn [Projections.dividends].
    rewrite trace_length. apply range_length. }
  unfold Summarizer.generate_summary.
  replace (Z.min 10 (Z.of_nat (List.length (Projections.net_worth projections)) - 1))
    with (Z.min 10 h) by lia.
  destruct (index_cases (Projections.net_worth projections) 0 ltac:(lia))
    as [[_ [first E0]]|[H0 _]]; [|lia].
  destruct (index_cases (Projections.net_worth projections) (Z.min 10 h)
              ltac:(lia)) as [[_ [row E1]]|[H1 _]]; [|lia].
  destruct (index_cases (Projections.income projections) (Z.min 10 h)
              ltac:(lia)) as [[_ [irow E2]]|[H2 _]]; [|lia].
  destruct (index_cases (Projections.dividends projections) (Z.min 10 h)
              ltac:(lia)) as [[_ [drow E3]]|[H3 _]]; [|lia].
  rewrite E0. cbn [bind]. rewrite E1. cbn [bind]. rewrite E2. cbn [bind].
  rewrite E3. cbn [bind].
  destruct (Py.neqb (NetWorthRow.net_worth first) 0) eqn:G;
    [rewrite div_by_abs by exact G|]; cbn [bind]; unfold Py.div;
    destruct (UserProfile.annual_income profile =? 0)%float; cbn [bind];
    try reflexivity; eexists; repeat split; reflexivity.
Qed.

Lemma generate_summary_on_projections_witness :
  exists dividends summary,
    0 <= FinancialProjector.horizon Demo.moderate None
    /\ FinancialProjector.initial_dividend_yield [] = Ok 0.03%float
    /\ FinancialProjector.project_dividends Demo.moderate [] None = Ok dividends
    /\ Summarizer.generate_summary Demo.moderate
         {| Projections.net_worth :=
              FinancialProjector.project_net_worth Demo.moderate
                (AIAdvisor._determine_allocation Demo.moderate) None;
            Projections.income :=
              FinancialProjector.project_income Demo.moderate None;
            Projections.dividends := dividends;
            Projections.portfolio_returns :=
              FinancialProjector.project_portfolio_returns Demo.moderate
                (AIAdvisor._determine_allocation Demo.moderate) None;
            Projections.retirement_readiness :=
              Readiness.mk 0 0 0 0 0 false 0 |} = Ok summary
    /\ FutureProjection.years_ahead (Summary.future_projection summary) = 10.
Proof.
  assert (Hh : 0 <= FinancialProjector.horizon Demo.moderate None)
    by (vm_compute; discriminate).
  destruct (generate_summary_on_projections Demo.moderate
              (AIAdvisor._determine_allocation Demo.moderate) [] None
              0.03%float (Readiness.mk 0 0 0 0 0 false 0) Hh eq_refl)
    as (dividends & Hd & Hs).
  cbv zeta in Hs.
  change (UserProfile.annual_income Demo.moderate =? 0)%float with false in Hs.
  destruct Hs as (summary & H1 & H2 & _).
  exists dividends, summary. repeat split; try assumption.
Defined.

(** * The advisor's classifications

    X1.  [_determine_strategy] returns "Capital Preservation" exactly when
    [years_to_retirement <= 5], "Balanced Growth" exactly when it is in
    6..15, and beyond 15 years "Aggressive Growth" / "Conservative Growth"
    exactly for the risk tolerance "aggressive" / "conservative" and
    "Moderate Growth" for every other tolerance: the risk tolerance only
    matters beyond 15 years. *)
Theorem strategy_decision_table (profile : UserProfile.t) :
  let years := UserProfile.years_to_retirement profile in
  let risk := UserProfile.risk_tolerance profile in
  let strategy := AIAdvisor._determine_strategy profile in
  (strategy = "Capital Preservation - Focus on stable dividend stocks and bonds"
   <-> years <= 5)
  /\ (strategy
      = "Balanced Growth - Mix of growth and dividend stocks with some bonds"
      <-> 5 < years <= 15)
  /\ (strategy
      = "Aggressive Growth - Focus on high-growth stocks and emerging sectors"
      <-> 15 < years /\ risk = "aggressive")
  /\ (strategy = "Conservative Growth - Blue-chip dividend stocks and bonds"
      <-> 15 < years /\ risk = "conservative")
  /\ (strategy
      = "Moderate Growth - Diversified portfolio with growth and value stocks"
      <-> 15 < years /\ risk <> "aggressive" /\ risk <> "conservative").
Proof.
  intros years risk strategy. unfold strategy, AIAdvisor._determine_strategy.
  fold years. fold risk.
  destruct (Z.leb_spec years 5) as [H5|H5];
    [|destruct (Z.leb_spec years 15) as [H15|H15];
      [|destruct (String.eqb_spec risk "aggressive") as [Ha|Ha];
        [|destruct (String.eqb_spec risk "conservative") as [Hc|Hc]]]];
    repeat match goal with
    | |- _ /\ _ => split
    | |- _ <-> _ => split
    end;
    intros; try discriminate; try lia;
    intuition (try discriminate; try lia; try congruence).
Qed.

Lemma assess_risk_equation (profile : UserProfile.t) :
  AIAdvisor._assess_risk profile
  = if ((UserProfile.annual_income profile =? 0)
        || (UserProfile.monthly_expenses profile =? 0))%float
    then Raise ZeroDivisionError
    else Ok (RiskSpec.label
               (RiskSpec.count
                  (RiskSpec.factors profile
                     (UserProfile.total_debt profile
                      / UserProfile.annual_income profile * 100)%float
                     (UserProfile.current_savings profile
                      / UserProfile.monthly_expenses profile)%float))).
Proof.
  unfold AIAdvisor._assess_risk, Py.div, RiskSpec.factors.
  destruct (UserProfile.annual_income profile =? 0)%float; [reflexivity|].
  cbn [bind orb].
  destruct (UserProfile.monthly_expenses profile =? 0)%float; [reflexivity|].
  cbn [bind]. f_equal.
  destruct (UserProfile.annual_income profile <? 50000)%float,
    (40 <? UserProfile.total_debt profile
           / UserProfile.annual_income profile * 100)%float,
    (UserProfile.current_savings profile
     / UserProfile.monthly_expenses profile <? 3)%float,
    (0 <? UserProfile.num_dependents profile),
    (UserProfile.years_to_retirement profile <? 10); reflexivity.
Qed.

(** X2.  [_assess_risk] raises [ZeroDivisionError] exactly when
    [annual_income] or [monthly_expenses] is zero, and never raises anything
    else. *)
Theorem assess_risk_raises (profile : UserProfile.t) :
  (AIAdvisor._assess_risk profile = Raise ZeroDivisionError
   <-> (UserProfile.annual_income profile =? 0)%float = true
       \/ (UserProfile.monthly_expenses profile =? 0)%float = true)
  /\ (forall e, AIAdvisor._assess_risk profile = Raise e
                -> e = ZeroDivisionError).
Proof.
  rewrite assess_risk_equation.
  destruct (UserProfile.annual_income profile =? 0)%float,
    (UserProfile.monthly_expenses profile =? 0)%float; cbn [orb];
    (split; [split; [intros H; try discriminate H; auto
                    |intros [H|H]; try discriminate H; reflexivity]
            |intros e H; try discriminate H; congruence]).
Qed.

(** X3.  When [_assess_risk] returns, its label counts the risk factors that
    hold among the five (income below 50000, debt-to-income above 40,
    emergency fund below 3 months, dependents, fewer than 10 years to
    retirement): "High Risk" exactly for 3 or more, "Moderate Risk" exactly
    for 1 or 2, "Low Risk" exactly for none; so a profile with dependents or
    with fewer than 10 years to retirement is never "Low Risk". *)
Theorem assess_risk_label (profile : UserProfile.t) (risk : string) :
  AIAdvisor._assess_risk profile = Ok risk ->
  let n :=
    RiskSpec.count
      (RiskSpec.factors profile
         (UserProfile.total_debt profile
          / UserProfile.annual_income profile * 100)%float
         (UserProfile.current_savings profile
          / UserProfile.monthly_expenses profile)%float) in
  0 <= n <= 5
  /\ (risk
      = "High Risk - Consider conservative investments and building emergency fund"
      <-> 3 <= n)
  /\ (risk = "Moderate Risk - Balance growth with stability" <-> 1 <= n <= 2)
  /\ (risk = "Low Risk - Good position for long-term growth investing"
      <-> n = 0)
  /\ (0 < UserProfile.num_dependents profile
      \/ UserProfile.years_to_retirement profile < 10 -> n <> 0).
Proof.
  rewrite assess_risk_equation.
  destruct ((UserProfile.annual_income profile =? 0)
            || (UserProfile.monthly_expenses profile =? 0))%float;
    [discriminate|].
  intros H n. injection H as <-. subst n. unfold RiskSpec.factors.
  destruct (Z.ltb_spec 0 (UserProfile.num_dependents profile)),
    (Z.ltb_spec (UserProfile.years_to_retirement profile) 10),
    (UserProfile.annual_income profile <? 50000)%float,
    (40 <? UserProfile.total_debt profile
           / UserProfile.annual_income profile * 100)%float,
    (UserProfile.current_savings profile
     / UserProfile.monthly_expenses profile <? 3)%float;
    cbn;
    repeat match goal with
    | |- _ /\ _ => split
    | |- _ <-> _ => split
    end;
    intros; try reflexivity; try discriminate; try lia.
Qed.

Lemma assess_risk_label_witness :
  AIAdvisor._assess_risk Demo.moderate
  = Ok "Moderate Risk - Balance growth with stability"
  /\ 1 <= RiskSpec.count
            (RiskSpec.factors Demo.moderate
               (UserProfile.total_debt Demo.moderate
                / UserProfile.annual_income Demo.moderate * 100)%float
               (UserProfile.current_savings Demo.moderate
                / UserProfile.monthly_expenses Demo.moderate)%float) <= 2.
Proof.
  assert (H : AIAdvisor._assess_risk Demo.moderate
              = Ok "Moderate Risk - Balance growth with stability")
    by (vm_compute; reflexivity).
  split; [exact H|].
  exact (proj1 (proj1 (proj2 (proj2 (assess_risk_label Demo.moderate _ H))))
           eq_refl).
Defined.

Lemma bind_raise {A B : Type} (c : result A) (k : A -> result B) (e : exn) :
  bind c k = Raise e ->
  c = Raise e \/ exists a, c = Ok a /\ k a = Raise e.
Proof.
  destruct c as [a|e']; simpl; intros H.
  - right. exists a. split; [reflexivity|exact H].
  - left. injection H as ->. reflexivity.
Qed.

Lemma bind_ok {A B : Type} (c : result A) (k : A -> result B) (b : B) :
  bind c k = Ok b -> exists a, c = Ok a /\ k a = Ok b.
Proof.
  destruct c as [a|e']; simpl; intros H; [|discriminate H].
  exists a. split; [reflexivity|exact H].
Qed.

Lemma div_raise (x y : float) (e : exn) :
  Py.div x y = Raise e -> e = ZeroDivisionError.
Proof.
  unfold Py.div. destruct (y =? 0)%float; intros H; [|discriminate H].
  congruence.
Qed.

(** X5.  [analyze_profile] raises nothing but [ZeroDivisionError], and it
    does raise it whenever [annual_income] or [monthly_expenses] is zero. *)
Theorem analyze_profile_raises (profile : UserProfile.t) :
  (forall e, AIAdvisor.analyze_profile profile = Raise e
             -> e = ZeroDivisionError)
  /\ ((UserProfile.annual_income profile =? 0)%float = true
      \/ (UserProfile.monthly_expenses profile =? 0)%float = true
      -> AIAdvisor.analyze_profile profile = Raise ZeroDivisionError).
Proof.
  assert (Honly : forall e, AIAdvisor.analyze_profile profile = Raise e
                            -> e = ZeroDivisionError).
  { intros e H. unfold AIAdvisor.analyze_profile in H.
    repeat match goal with
    | H : bind _ _ = Raise _ |- _ =>
        apply bind_raise in H; destruct H as [H|(? & _ & H)]
    | H : Py.div _ _ = Raise _ |- _ => exact (div_raise _ _ _ H)
    | H : AIAdvisor._assess_risk _ = Raise _ |- _ =>
        exact (proj2 (assess_risk_raises _) _ H)
    | H : (if ?c then _ else _) = Raise _ |- _ => destruct c
    | H : Ok _ = Raise _ |- _ => discriminate H
    end. }
  split; [exact Honly|].
  intros H.
  destruct (AIAdvisor.analyze_profile profile) as [a|e] eqn:E.
  - exfalso. unfold AIAdvisor.analyze_profile in E.
    apply bind_ok in E. destruct E as (r & E1 & E).
    apply bind_ok in E. destruct E as (d & E2 & E).
    apply bind_ok in E. destruct E as (y & E3 & E).
    apply bind_ok in E. destruct E as (em & E4 & E).
    unfold Py.div in E1, E2, E4.
    destruct H as [H|H].
    + rewrite H in E2. discriminate E2.
    + rewrite H in E4. discriminate E4.
  - rewrite (Honly e eq_refl). reflexivity.
Qed.

(** X6.  Every analysis that [analyze_profile] returns carries the allocation
    of [_determine_allocation], whose stocks and bonds sum to 100 (what
    [test_ai_advisor] asserts) with stocks in 30..90 for any age, the
    strategy of [_determine_strategy] and the label of [_assess_risk]. *)
Theorem analysis_allocation_sums_to_100 (profile : UserProfile.t)
  (analysis : Analysis.t) :
  AIAdvisor.analyze_profile profile = Ok analysis ->
  let allocation := Analysis.recommended_allocation analysis in
  allocation = AIAdvisor._determine_allocation profile
  /\ Allocation.stocks allocation + Allocation.bonds allocation = 100
  /\ 30 <= Allocation.stocks allocation <= 90
  /\ Breakdown.bonds (Allocation.breakdown allocation)
     = Allocation.bonds allocation
  /\ Analysis.investment_strategy analysis
     = AIAdvisor._determine_strategy profile
  /\ AIAdvisor._assess_risk profile = Ok (Analysis.risk_assessment analysis).
Proof.
  intros E allocation. unfold AIAdvisor.analyze_profile in E.
  apply bind_ok in E. destruct E as (r & E1 & E).
  apply bind_ok in E. destruct E as (d & E2 & E).
  apply bind_ok in E. destruct E as (y & E3 & E).
  apply bind_ok in E. destruct E as (em & E4 & E).
  apply bind_ok in E. destruct E as (risk & E5 & E).
  injection E as <-. subst allocation. cbn [Analysis.recommended_allocation
    Analysis.investment_strategy Analysis.risk_assessment].
  split; [reflexivity|].
  unfold AIAdvisor._determine_allocation, Py.round_int.
  cbn [Allocation.stocks Allocation.bonds Allocation.breakdown Breakdown.bonds].
  repeat split; try lia; try reflexivity. exact E5.
Qed.

Lemma analysis_allocation_sums_to_100_witness :
  exists analysis,
    AIAdvisor.analyze_profile Demo.young = Ok analysis
    /\ Allocation.stocks (Analysis.recommended_allocation analysis)
       + Allocation.bonds (Analysis.recommended_allocation analysis) = 100.
Proof.
  assert (H : {a | AIAdvisor.analyze_profile Demo.young = Ok a}).
  { eexists. vm_compute. reflexivity. }
  destruct H as [a H]. exists a. split; [exact H|].
  exact (proj1 (proj2 (analysis_allocation_sums_to_100 Demo.young a H))).
Defined.


(** X4.  [_generate_rationale] never returns the empty string, and it returns
    the fallback "Solid fundamentals for diversified portfolio" exactly when
    none of its five reasons applies. *)
Theorem rationale_fallback (stock : Stock.t) (profile : UserProfile.t) :
  AIAdvisor._generate_rationale stock profile <> ""
  /\ (AIAdvisor._generate_rationale stock profile
      = "Solid fundamentals for diversified portfolio"
      <-> existsb (fun b => b) (RationaleSpec.conditions stock profile) = false).
Proof.
  unfold AIAdvisor._generate_rationale, RationaleSpec.conditions.
  unfold AIAdvisor.truthy_and_gt.
  destruct stock as [tk nm sec cp dy pe beta cap].
  cbn [Stock.sector Stock.dividend_yield Stock.pe_ratio Stock.beta].
  generalize (match beta with Some b => b | None => 1.0%float end) as b.
  intros b.
  destruct dy as [dy|], pe as [pe|]; cbv beta iota zeta;
    fold (AIAdvisor.sector_preferred (Stock.mk tk nm sec cp None None beta cap));
    repeat match goal with
    | |- context [if ?c then _ else _] =>
        match type of c with bool => destruct c end
    end;
    cbn; (split; [discriminate|split; intros H; try discriminate H; reflexivity]).
Qed.

Lemma lower_ascii_idempotent (c : ascii) :
  Py.lower_ascii (Py.lower_ascii c) = Py.lower_ascii c.
Proof. destruct c as [[] [] [] [] [] [] [] []]; reflexivity. Qed.

Lemma lower_idempotent (s : string) : Py.lower (Py.lower s) = Py.lower s.
Proof.
  induction s as [|c s IH]; simpl; [reflexivity|].
  rewrite lower_ascii_idempotent, IH. reflexivity.
Qed.

Lemma slice_to_length {A : Type} (l : list A) (stop : Z) :
  0 <= stop ->
  Z.of_nat (List.length (Py.slice_to l stop))
  = Z.min stop (Z.of_nat (List.length l)).
Proof.
  intros H. unfold Py.slice_to.
  replace (stop <? 0) with false by (symmetry; apply Z.ltb_ge; lia).
  rewrite length_firstn. lia.
Qed.

Lemma slice_to_negative_length {A : Type} (l : list A) (stop : Z) :
  stop < 0 ->
  Z.of_nat (List.length (Py.slice_to l stop))
  = Z.max 0 (Z.of_nat (List.length l) + stop).
Proof.
  intros H. unfold Py.slice_to.
  replace (stop <? 0) with true by (symmetry; apply Z.ltb_lt; lia).
  rewrite length_firstn. lia.
Qed.

Lemma firstn_In {A : Type} (n : nat) (l : list A) (a : A) :
  In a (firstn n l) -> In a l.
Proof.
  revert l. induction n as [|n IH]; intros [|x l]; simpl; try tauto.
  intros [H|H]; [left; exact H|right; apply IH; exact H].
Qed.

Lemma firstn_NoDup {A : Type} (n : nat) (l : list A) :
  NoDup l -> NoDup (firstn n l).
Proof.
  revert l. induction n as [|n IH]; intros [|x l] H; simpl;
    try constructor.
  - intros Hin. apply firstn_In in Hin. inversion H; contradiction.
  - apply IH. inversion H; assumption.
Qed.

Lemma slice_to_incl {A : Type} (l : list A) (stop : Z) :
  incl (Py.slice_to l stop) l.
Proof. unfold Py.slice_to. intros a H. exact (firstn_In _ _ _ H). Qed.

Lemma get_cases {V : Type} (d : Py.dict V) (key : string) (default : V) :
  (Py.str_in key (map fst d) = false /\ Py.get d key default = default)
  \/ (Py.str_in key (map fst d) = true
      /\ In (key, Py.get d key default) d).
Proof.
  induction d as [|[k v] d IH]; simpl.
  - left. split; reflexivity.
  - rewrite (String.eqb_sym key k).
    destruct (String.eqb_spec k key) as [->|Hne]; simpl.
    + right. split; [reflexivity|left; reflexivity].
    + destruct IH as [[H1 H2]|[H1 H2]]; [left|right]; split; auto.
Qed.

(** * The ticker tables

    X16.  [get_sector_stocks] ignores the case of the sector name; a name
    that is no key of the table gives the empty list; the result has at most
    10 tickers, at most [limit] for a non-negative [limit], and each of them
    stands in the table under the lower-cased name. *)
Theorem sector_stocks_lookup (sector : string) (limit : Z) :
  MarketDataFetcher.get_sector_stocks (Py.lower sector) limit
  = MarketDataFetcher.get_sector_stocks sector limit
  /\ (Py.str_in (Py.lower sector) (map fst MarketDataFetcher.sector_stocks)
      = false
      -> MarketDataFetcher.get_sector_stocks sector limit = [])
  /\ (List.length (MarketDataFetcher.get_sector_stocks sector limit) <= 10)%nat
  /\ (0 <= limit
      -> Z.of_nat (List.length (MarketDataFetcher.get_sector_stocks sector limit))
         <= limit)
  /\ (forall ticker,
         In ticker (MarketDataFetcher.get_sector_stocks sector limit) ->
         exists name tickers,
           In (name, tickers) MarketDataFetcher.sector_stocks
           /\ name = Py.lower sector /\ In ticker tickers).
Proof.
  unfold MarketDataFetcher.get_sector_stocks.
  split; [rewrite lower_idempotent; reflexivity|].
  destruct (get_cases MarketDataFetcher.sector_stocks (Py.lower sector) [])
    as [[Hk Hg]|[Hk Hg]].
  - rewrite Hg. unfold Py.slice_to. rewrite firstn_nil.
    repeat split; intros; simpl in *; try lia; try reflexivity; contradiction.
  - split; [rewrite Hk; discriminate|].
    assert (Hlen : (List.length
                      (Py.get MarketDataFetcher.sector_stocks
                         (Py.lower sector) []) <= 10)%nat).
    { revert Hg. generalize (Py.get MarketDataFetcher.sector_stocks
                               (Py.lower sector) []).
      intros l Hin. unfold MarketDataFetcher.sector_stocks in Hin.
      simpl in Hin.
      repeat (destruct Hin as [Hin|Hin];
              [injection Hin as _ <-; simpl; lia|]).
      contradiction. }
    split; [|split].
    + unfold Py.slice_to. rewrite length_firstn. lia.
    + intros Hl. rewrite slice_to_length by exact Hl. lia.
    + intros ticker Hin. eexists. eexists. split; [exact Hg|].
      split; [reflexivity|]. exact (slice_to_incl _ _ _ Hin).
Qed.

(** X17.  [get_dividend_stocks(limit)] returns [min(limit, 20)] tickers for a
    non-negative [limit] and all but the last [-limit] for a negative one,
    all of them from the dividend list and without repeats. *)
Theorem dividend_stocks_prefix (limit : Z) :
  (0 <= limit
   -> Z.of_nat (List.length (MarketDataFetcher.get_dividend_stocks limit))
      = Z.min limit 20)
  /\ (limit < 0
      -> Z.of_nat (List.length (MarketDataFetcher.get_dividend_stocks limit))
         = Z.max 0 (20 + limit))
  /\ incl (MarketDataFetcher.get_dividend_stocks limit)
          MarketDataFetcher.dividend_stocks
  /\ NoDup (MarketDataFetcher.get_dividend_stocks limit).
Proof.
  unfold MarketDataFetcher.get_dividend_stocks.
  split; [intros H; rewrite slice_to_length by exact H; reflexivity|].
  split; [intros H; rewrite slice_to_negative_length by exact H; reflexivity|].
  split; [apply slice_to_incl|].
  unfold Py.slice_to. apply firstn_NoDup.
  unfold MarketDataFetcher.dividend_stocks.
  repeat (constructor; [simpl; intuition discriminate|]). constructor.
Qed.

Lemma demo_profile_cases (scenario : string) :
  In (Demo.get_demo_profile scenario)
     [Demo.young; Demo.moderate; Demo.conservative; Demo.retirement].
Proof.
  unfold Demo.get_demo_profile.
  destruct (String.eqb scenario "young"); [simpl; tauto|].
  destruct (String.eqb scenario "moderate"); [simpl; tauto|].
  destruct (String.eqb scenario "conservative"); [simpl; tauto|].
  destruct (String.eqb scenario "retirement"); simpl; tauto.
Qed.

(** * The demo profiles and the profile dict

    X18.  For every scenario string [get_demo_profile] returns a profile
    (the moderate one for an unknown scenario) with a positive age, income
    and monthly expenses and a non-negative [years_to_retirement], on which
    [analyze_profile] returns without an exception. *)
Theorem demo_profiles_analyse (scenario : string) :
  let profile := Demo.get_demo_profile scenario in
  (scenario <> "young" -> scenario <> "conservative"
   -> scenario <> "retirement" -> profile = Demo.moderate)
  /\ 0 < UserProfile.age profile
  /\ (0 <? UserProfile.annual_income profile)%float = true
  /\ (0 <? UserProfile.monthly_expenses profile)%float = true
  /\ 0 <= UserProfile.years_to_retirement profile
  /\ (exists analysis,
        AIAdvisor.analyze_profile profile = Ok analysis
        /\ Allocation.stocks (Analysis.recommended_allocation analysis)
           = AllocationSpec.stocks_pct (UserProfile.age profile)
               (UserProfile.risk_tolerance profile)).
Proof.
  intros profile. split.
  - intros H1 H2 H3. unfold profile, Demo.get_demo_profile.
    destruct (String.eqb_spec scenario "young"); [contradiction|].
    destruct (String.eqb scenario "moderate"); [reflexivity|].
    destruct (String.eqb_spec scenario "conservative"); [contradiction|].
    destruct (String.eqb_spec scenario "retirement"); [contradiction|].
    reflexivity.
  - pose proof (demo_profile_cases scenario) as H. fold profile in H.
    simpl in H.
    destruct H as [<-|[<-|[<-|[<-|[]]]]];
      (split; [reflexivity|]; split; [reflexivity|]; split; [reflexivity|];
       split; [simpl; lia|];
       eexists; split; [vm_compute; reflexivity|reflexivity]).
Qed.

(** X19.  [from_dict(to_dict(profile))] is the profile again; [to_dict] lists
    the sixteen fields in the order of the dataclass; and without the
    ['other_notes'] item [from_dict] fills in the default, the empty
    string. *)
Theorem profile_dict_round_trip (profile : UserProfile.t) :
  ProfileDict.from_dict (ProfileDict.to_dict profile) = Ok profile
  /\ map fst (ProfileDict.to_dict profile) = ProfileDict.field_names
  /\ ProfileDict.from_dict (removelast (ProfileDict.to_dict profile))
     = Ok (UserProfile.mk
             (UserProfile.age profile) (UserProfile.location profile)
             (UserProfile.annual_income profile)
             (UserProfile.current_savings profile)
             (UserProfile.monthly_expenses profile)
             (UserProfile.total_debt profile)
             (UserProfile.career_field profile)
             (UserProfile.years_to_retirement profile)
             (UserProfile.expected_income_growth profile)
             (UserProfile.marital_status profile)
             (UserProfile.num_dependents profile)
             (UserProfile.major_life_goals profile)
             (UserProfile.risk_tolerance profile)
             (UserProfile.investment_horizon profile)
             (UserProfile.preferred_sectors profile) "").
Proof. destruct profile. repeat split. Qed.

Lemma lookup_None_not_in (data : Py.dict PyValue.t) (key : string) :
  ProfileDict.lookup data key = None <-> ~ In key (map fst data).
Proof.
  induction data as [|[k v] data IH]; simpl.
  - tauto.
  - destruct (String.eqb_spec k key) as [->|Hne].
    + split; [discriminate|intros H; exfalso; apply H; left; reflexivity].
    + rewrite IH. tauto.
Qed.

(** X20.  [from_dict] raises [TypeError] on a dict with a key that is no field
    of the profile and on a dict that lacks one of the fifteen fields without
    a default; it raises nothing else. *)
Theorem from_dict_rejects (data : Py.dict PyValue.t) :
  ((exists key, In key (map fst data) /\ ~ In key ProfileDict.field_names)
   -> ProfileDict.from_dict data = Raise TypeError)
  /\ ((exists key, In key (removelast ProfileDict.field_names)
                   /\ ~ In key (map fst data))
      -> ProfileDict.from_dict data = Raise TypeError)
  /\ (forall e, ProfileDict.from_dict data = Raise e -> e = TypeError).
Proof.
  assert (Honly : forall e, ProfileDict.from_dict data = Raise e
                            -> e = TypeError).
  { intros e H. unfold ProfileDict.from_dict in H.
    destruct (negb _); [congruence|].
    unfold ProfileDict.int_arg, ProfileDict.float_arg, ProfileDict.str_arg,
      ProfileDict.list_arg in H.
    repeat match goal with
    | H : bind _ _ = Raise _ |- _ =>
        apply bind_raise in H; destruct H as [H|(? & _ & H)]
    | H : match ?x with _ => _ end = Raise _ |- _ => destruct x
    | H : Raise _ = Raise _ |- _ => congruence
    | H : Ok _ = Raise _ |- _ => discriminate H
    end. }
  split; [|split; [|exact Honly]].
  - intros (key & Hin & Hnot). unfold ProfileDict.from_dict.
    replace (forallb (fun kv => Py.str_in (fst kv) ProfileDict.field_names) data)
      with false; [reflexivity|].
    symmetry. apply not_true_iff_false. intros Hall.
    rewrite forallb_forall in Hall.
    apply in_map_iff in Hin. destruct Hin as ([k v] & <- & Hkv).
    specialize (Hall _ Hkv). unfold Py.str_in in Hall.
    apply existsb_exists in Hall. destruct Hall as (k' & Hk' & Heq).
    apply String.eqb_eq in Heq. simpl in Heq. subst k'. contradiction.
  - intros (key & Hin & Hnot).
    destruct (ProfileDict.from_dict data) as [p|e] eqn:E;
      [|rewrite (Honly e eq_refl); reflexivity].
    exfalso. apply lookup_None_not_in in Hnot.
    unfold ProfileDict.from_dict in E.
    destruct (negb _); [discriminate E|].
    repeat (apply bind_ok in E; destruct E as (? & ? & E)).
    unfold ProfileDict.int_arg, ProfileDict.float_arg, ProfileDict.str_arg,
      ProfileDict.list_arg in *.
    simpl in Hin.
    repeat (destruct Hin as [<-|Hin];
            [repeat match goal with
                    | H : context [ProfileDict.lookup data _] |- _ =>
                        rewrite Hnot in H; discriminate H
                    | H : context [ProfileDict.lookup data _] |- _ => clear H
                    end|]).
    contradiction.
Qed.

Lemma recommended_yields_cases (recs : list Recommendation.t) :
  ((exists ys, FinancialProjector.recommended_yields recs = Ok ys)
   /\ forall r, In r recs -> Recommendation.dividend_yield r <> None)
  \/ (FinancialProjector.recommended_yields recs = Raise TypeError
      /\ exists r, In r recs /\ Recommendation.dividend_yield r = None).
Proof.
  induction recs as [|s recs IH]; simpl.
  - left. split; [eexists; reflexivity|intros r []].
  - destruct (Recommendation.dividend_yield s) as [y|] eqn:E.
    + destruct IH as [[[ys Hys] Hall]|[Hr (r & Hin & Hnone)]].
      * left. rewrite Hys. split; [eexists; reflexivity|].
        intros r [<-|Hin]; [congruence|exact (Hall r Hin)].
      * right. rewrite Hr. split; [reflexivity|].
        exists r. split; [right; exact Hin|exact Hnone].
    + right. split; [reflexivity|]. exists s. split; [left; reflexivity|exact E].
Qed.

(** * Exceptions of the projector

    X12.  [project_dividends] raises [TypeError] exactly when some
    recommendation has a ['dividend_yield'] that is [None]; it raises nothing
    else, and otherwise returns [horizon + 1] rows. *)
Theorem project_dividends_type_error (profile : UserProfile.t)
  (stock_recommendations : list Recommendation.t) (years : option Z) :
  (FinancialProjector.project_dividends profile stock_recommendations years
   = Raise TypeError
   <-> exists r, In r stock_recommendations
                 /\ Recommendation.dividend_yield r = None)
  /\ (forall e,
        FinancialProjector.project_dividends profile stock_recommendations years
        = Raise e -> e = TypeError)
  /\ ((forall r, In r stock_recommendations
                 -> Recommendation.dividend_yield r <> None)
      -> exists rows,
          FinancialProjector.project_dividends profile stock_recommendations
            years = Ok rows
          /\ List.length rows
             = Z.to_nat (FinancialProjector.horizon profile years + 1)).
Proof.
  assert (Hinit :
    ((exists avg,
        FinancialProjector.initial_dividend_yield stock_recommendations = Ok avg)
     /\ forall r, In r stock_recommendations
                  -> Recommendation.dividend_yield r <> None)
    \/ (FinancialProjector.initial_dividend_yield stock_recommendations
        = Raise TypeError
        /\ exists r, In r stock_recommendations
                     /\ Recommendation.dividend_yield r = None)).
  { unfold FinancialProjector.initial_dividend_yield.
    destruct (recommended_yields_cases stock_recommendations)
      as [[[ys Hys] Hall]|[Hr Hex]].
    - left. split; [|exact Hall]. rewrite Hys.
      destruct stock_recommendations; eexists; reflexivity.
    - right. split; [|exact Hex]. rewrite Hr.
      destruct stock_recommendations as [|s l]; [|reflexivity].
      destruct Hex as (r & [] & _). }
  destruct Hinit as [[[avg Havg] Hall]|[Hraise Hex]].
  - rewrite (project_dividends_trace _ _ _ _ Havg).
    split; [split; [discriminate|]|split; [discriminate|]].
    + intros (r & Hin & Hnone). exfalso. exact (Hall r Hin Hnone).
    + intros _. eexists. split; [reflexivity|].
      rewrite trace_length. apply range_length.
  - unfold FinancialProjector.project_dividends. rewrite Hraise. cbn [bind].
    split; [split; [intros _; exact Hex|reflexivity]|split].
    + intros e H. congruence.
    + intros Hall. destruct Hex as (r & Hin & Hnone).
      exfalso. exact (Hall r Hin Hnone).
Qed.







